(** * Retrieval store of the portfolio backend

    A shallow embedding of [backend/retrieval/store.py]: the cached
    portfolio loader, the keyword router, the optional dense retriever, the
    context selector and the link extractor, together with the properties
    of these functions.

    Text is modelled as byte strings ([string]), the UTF-8 form of
    Python's [str]; [str.lower], which knows of every cased letter of
    Unicode, is a parameter [str_lower] of the development.
    Modification times are integers: the code only compares them.  What
    the code prints is kept as events of a log, next to the calls that
    reach outside the module (opening the file, constructing and searching
    the retriever).  A print raises when [sys.stdout] cannot write the
    message, as every message starts with a symbol that many encodings
    lack; which prints succeed is the parameter [prints]. *)

From Stdlib Require Import String Ascii ZArith List Bool Lia DecimalString.
Import ListNotations.

Local Open Scope string_scope.
Local Open Scope Z_scope.

(** ** Python text operations *)

Module Py.

(** The lower case of an ASCII character. *)
Definition lower_ascii (c : ascii) : ascii :=
  let n := nat_of_ascii c in
  if (Nat.leb 65 n && Nat.leb n 90)%bool then ascii_of_nat (n + 32) else c.

(** [s.lower()] on a text whose cased letters are all ASCII, as the
    sample questions below are; it stands in for [str.lower] there. *)
Fixpoint lower (s : string) : string :=
  match s with
  | EmptyString => EmptyString
  | String c s' => String (lower_ascii c) (lower s')
  end.

(** [word in q] on strings: [word] occurs in [q] as a substring. *)
Fixpoint str_in (word q : string) : bool :=
  (String.prefix word q
   || match q with
      | EmptyString => false
      | String _ q' => str_in word q'
      end)%bool.

(** [any(word in q for word in words)]. *)
Definition any_in (words : list string) (q : string) : bool :=
  existsb (fun word => str_in word q) words.

(** [sep.join(parts)]. *)
Definition join (sep : string) (parts : list string) : string :=
  String.concat sep parts.

(** [xs[i]] on a list, with Python's negative indices; [None] is
    [IndexError]. *)
Definition getitem {A : Type} (xs : list A) (i : Z) : option A :=
  let n := Z.of_nat (length xs) in
  if 0 <=? i then nth_error xs (Z.to_nat i)
  else if 0 <=? i + n then nth_error xs (Z.to_nat (i + n))
  else None.

(** [xs[:n]]. *)
Definition slice_to {A : Type} (n : nat) (xs : list A) : list A :=
  firstn n xs.

End Py.

(** ** JSON values *)

Module Json.

(** A parsed JSON value as [json.load] returns it.  [JNull] is Python's
    [None].  A float is carried by the text of its [repr], since no
    arithmetic is done on it.  A [dict] is kept as its items in
    insertion order, which is the order [json.dumps] prints them in; the
    parser yields distinct keys. *)
#[warnings="-register-all"]
Inductive json : Type :=
| JNull
| JBool (b : bool)
| JInt (z : Z)
| JFloat (repr : string)
| JString (s : string)
| JArray (items : list json)
| JObject (members : list (string * json)).

(** [key in d]. *)
Fixpoint has_key (key : string) (d : list (string * json)) : bool :=
  match d with
  | [] => false
  | (k, _) :: d' => (String.eqb k key || has_key key d')%bool
  end.

(** [d[key]] where the key is known to be present, [None] otherwise. *)
Fixpoint lookup (key : string) (d : list (string * json)) : option json :=
  match d with
  | [] => None
  | (k, v) :: d' => if String.eqb k key then Some v else lookup key d'
  end.

(** [d.get(key, default)]. *)
Definition get (key : string) (default : json) (d : list (string * json))
  : json :=
  match lookup key d with
  | Some v => v
  | None => default
  end.

Definition newline : string := String "010"%char EmptyString.

Fixpoint spaces (n : nat) : string :=
  match n with
  | O => ""
  | S n' => String " "%char (spaces n')
  end.

(** A line break followed by the indentation of nesting depth [level]
    under [indent=2]. *)
Definition newline_indent (level : nat) : string :=
  newline ++ spaces (2 * level).

Definition quote : string := String "034"%char EmptyString.

Definition hex_digit (n : nat) : ascii :=
  if Nat.ltb n 10 then ascii_of_nat (48 + n) else ascii_of_nat (87 + n).

(** The escape of one character under [ensure_ascii=False]: the quote,
    the backslash and the control characters below 0x20. *)
Definition escape_ascii (c : ascii) : string :=
  let n := nat_of_ascii c in
  if Nat.eqb n 34 then "\" ++ quote
  else if Nat.eqb n 92 then "\\"
  else if Nat.eqb n 8 then "\b"
  else if Nat.eqb n 12 then "\f"
  else if Nat.eqb n 10 then "\n"
  else if Nat.eqb n 13 then "\r"
  else if Nat.eqb n 9 then "\t"
  else if Nat.ltb n 32
       then "\u00" ++ String (hex_digit (Nat.div n 16))
                        (String (hex_digit (Nat.modulo n 16)) "")
       else String c "".

Fixpoint escape (s : string) : string :=
  match s with
  | EmptyString => ""
  | String c s' => escape_ascii c ++ escape s'
  end.

Definition dumps_string (s : string) : string := quote ++ escape s ++ quote.

Definition dumps_float (repr : string) : string :=
  if String.eqb repr "nan" then "NaN"
  else if String.eqb repr "inf" then "Infinity"
  else if String.eqb repr "-inf" then "-Infinity"
  else repr.

(** [json.dumps(v, ensure_ascii=False, indent=2)] at nesting depth
    [level]. *)
Fixpoint dumps_at (level : nat) (v : json) : string :=
  match v with
  | JNull => "null"
  | JBool true => "true"
  | JBool false => "false"
  | JInt z => NilZero.string_of_int (Z.to_int z)
  | JFloat r => dumps_float r
  | JString s => dumps_string s
  | JArray [] => "[]"
  | JArray (x :: xs) =>
      "[" ++ newline_indent (S level) ++ dumps_at (S level) x
      ++ (fix rest (l : list json) : string :=
            match l with
            | [] => ""
            | y :: l' =>
                "," ++ newline_indent (S level) ++ dumps_at (S level) y
                ++ rest l'
            end) xs
      ++ newline_indent level ++ "]"
  | JObject [] => "{}"
  | JObject ((k, x) :: ms) =>
      "{" ++ newline_indent (S level) ++ dumps_string k ++ ": "
      ++ dumps_at (S level) x
      ++ (fix rest (l : list (string * json)) : string :=
            match l with
            | [] => ""
            | (k', y) :: l' =>
                "," ++ newline_indent (S level) ++ dumps_string k' ++ ": "
                ++ dumps_at (S level) y ++ rest l'
            end) ms
      ++ newline_indent level ++ "}"
  end.

Definition dumps (v : json) : string := dumps_at 0 v.

End Json.

Import Json.

(** ** Results, module state and the world outside *)

(** The exceptions the modelled code can meet. *)
Inductive exception : Type :=
| OSError            (* stat, open or read fails *)
| JSONDecodeError    (* json.load / json.loads rejects the text *)
| AttributeError     (* .get on a value that is no dict *)
| KeyError           (* d[key] on a missing key *)
| IndexError         (* list index out of range *)
| LoadError          (* import, model or index loading fails *)
| SearchError        (* encode or index.search fails *)
| UnicodeEncodeError. (* print cannot write its message to stdout *)

Inductive result (A : Type) : Type :=
| Ok (a : A)
| Raise (e : exception).

Arguments Ok {A} a.
Arguments Raise {A} e.

(** Sequencing of steps that may raise. *)
Definition and_then {A B : Type} (r : result A) (f : A -> result B)
  : result B :=
  match r with
  | Ok a => f a
  | Raise e => Raise e
  end.

Declare Scope result_scope.
Delimit Scope result_scope with result.
Bind Scope result_scope with result.

Notation "x <- r ;; k" := (and_then r (fun x => k))
  (at level 61, r at next level, right associativity) : result_scope.

(** What the code does that can be seen from outside, newest first. *)
Inductive event : Type :=
| OpenPortfolio      (* open(PORTFOLIO_PATH): one read of the file *)
| PortfolioReloaded  (* print: Portfolio reloaded *)
| PortfolioError     (* print: Error loading portfolio *)
| Construct          (* DenseRetriever() is called *)
| IndexLoaded        (* print: Loaded vector index *)
| IndexNotLoaded     (* print: Could not load vector index *)
| Search             (* _dense_retriever.search(...) is called *)
| VectorSearchError  (* print: Vector search error *)
| UsingVector        (* print: Using vector search *)
| UsingKeyword.      (* print: Using keyword matching *)

Definition event_eqb (a b : event) : bool :=
  match a, b with
  | OpenPortfolio, OpenPortfolio
  | PortfolioReloaded, PortfolioReloaded
  | PortfolioError, PortfolioError
  | Construct, Construct
  | IndexLoaded, IndexLoaded
  | IndexNotLoaded, IndexNotLoaded
  | Search, Search
  | VectorSearchError, VectorSearchError
  | UsingVector, UsingVector
  | UsingKeyword, UsingKeyword => true
  | _, _ => false
  end.

(** How often [ev] was logged. *)
Definition count (ev : event) (l : list event) : nat :=
  length (filter (event_eqb ev) l).

(** A [sys.stdout] that writes every message, and one whose encoding has
    none of the symbols the messages start with. *)
Definition utf8 (ev : event) : bool := true.

Definition ascii_stdout (ev : event) : bool := false.

(** [_portfolio_cache]: [data] is [JNull] while nothing is loaded. *)
Record cache : Type := {
  data : json;
  last_modified : Z
}.

(** A [DenseRetriever] instance.  [index_search question top_k] is the row
    [indices[0]] of [self.index.search(self.model.encode([question]), top_k)],
    [None] when either call raises.  [chunks] is the metadata as
    [embed_build.py] writes it, a list of [(id, text)] pairs. *)
Record DenseRetriever : Type := {
  index_search : string -> Z -> option (list Z);
  chunks : list (string * string)
}.

(** The globals of the module and the log of what was done. *)
Record state : Type := {
  _portfolio_cache : cache;
  _dense_retriever : option DenseRetriever;
  log : list event
}.

(** The state of a process that has just imported the module. *)
Definition initial : state :=
  {| _portfolio_cache := {| data := JNull; last_modified := 0 |};
     _dense_retriever := None;
     log := [] |}.

(** A file on disk: its modification time and its text, [None] when it
    cannot be opened or read. *)
Record file : Type := {
  st_mtime : Z;
  text : option string
}.

(** What the code consults outside the module at one call: the environment
    variable, the portfolio file ([None]: no such file), the index file
    ([Some None]: present but [faiss.read_index] fails), the metadata file
    ([Some None]: present but not loadable) and whether the imports and the
    embedding model load. *)
Record env : Type := {
  ENABLE_RAG : option string;
  PORTFOLIO_PATH : option file;
  INDEX_PATH : option (option (string -> Z -> option (list Z)));
  META_PATH : option (option (list (string * string)));
  sentence_transformer : bool
}.

(** [path.exists()]. *)
Definition exists_ {A : Type} (path : option A) : bool :=
  match path with
  | Some _ => true
  | None => false
  end.

(** A computation on the module state that returns or raises. *)
Definition M (A : Type) : Type := state -> result A * state.

Definition ret {A : Type} (a : A) : M A := fun s => (Ok a, s).

Definition raise {A : Type} (e : exception) : M A := fun s => (Raise e, s).

Definition bind {A B : Type} (m : M A) (f : A -> M B) : M B :=
  fun s =>
    match m s with
    | (Ok a, s') => f a s'
    | (Raise e, s') => (Raise e, s')
    end.

(** [try: m  except Exception as e: handler e]; what [m] did to the state
    before raising stays done. *)
Definition try_except {A : Type} (m : M A) (handler : exception -> M A)
  : M A :=
  fun s =>
    match m s with
    | (Ok a, s') => (Ok a, s')
    | (Raise e, s') => handler e s'
    end.

Definition lift {A : Type} (r : result A) : M A := fun s => (r, s).

Definition get_state : M state := fun s => (Ok s, s).

(** One more event in the log. *)
Definition emit (ev : event) : M unit :=
  fun s => (Ok tt, {| _portfolio_cache := _portfolio_cache s;
                      _dense_retriever := _dense_retriever s;
                      log := ev :: log s |}).

(** [_portfolio_cache["data"] = v]. *)
Definition set_data (v : json) : M unit :=
  fun s => (Ok tt,
            {| _portfolio_cache :=
                 {| data := v;
                    last_modified := last_modified (_portfolio_cache s) |};
               _dense_retriever := _dense_retriever s;
               log := log s |}).

(** [_portfolio_cache["last_modified"] = t]. *)
Definition set_last_modified (t : Z) : M unit :=
  fun s => (Ok tt,
            {| _portfolio_cache :=
                 {| data := data (_portfolio_cache s);
                    last_modified := t |};
               _dense_retriever := _dense_retriever s;
               log := log s |}).

(** [_dense_retriever = r]. *)
Definition set_retriever (r : DenseRetriever) : M unit :=
  fun s => (Ok tt, {| _portfolio_cache := _portfolio_cache s;
                      _dense_retriever := Some r;
                      log := log s |}).

Declare Scope py_scope.
Delimit Scope py_scope with py.
Bind Scope py_scope with M.

Notation "x <- m ;; k" := (bind m (fun x => k))
  (at level 61, m at next level, right associativity) : py_scope.
Notation "m ;; k" := (bind m (fun _ => k))
  (at level 61, right associativity) : py_scope.

Local Open Scope py_scope.

(** [v is None]. *)
Definition is_None (v : json) : bool :=
  match v with
  | JNull => true
  | _ => false
  end.

(** [{label, url}]: both fields hold whatever value the record carried. *)
Record link : Type := {
  label : json;
  url : json
}.

(** ** The functions of store.py *)

Section Store.

(** [json.loads] of the runtime: the parsed value, or [None] when it
    raises. *)
Variable json_loads : string -> option json.

(** [str(v)] of the runtime, as an f-string formats a value that is no
    string. *)
Variable py_str : json -> string.

(** [s.lower()] of the runtime. *)
Variable str_lower : string -> string.

(** Whether [print] of the message of an event succeeds on the
    [sys.stdout] of the process. *)
Variable prints : event -> bool.

(** [print(message)]. *)
Definition print (ev : event) : M unit :=
  if prints ev then emit ev else raise UnicodeEncodeError.

(** [PORTFOLIO_PATH.stat().st_mtime]. *)
Definition stat_mtime (e : env) : M Z :=
  match PORTFOLIO_PATH e with
  | Some f => ret (st_mtime f)
  | None => raise OSError
  end.

(** [open(PORTFOLIO_PATH, encoding=...)] and the read of the text. *)
Definition open_portfolio (e : env) : M string :=
  emit OpenPortfolio ;;
  match PORTFOLIO_PATH e with
  | Some f =>
      match text f with
      | Some t => ret t
      | None => raise OSError
      end
  | None => raise OSError
  end.

(** [json.load(f)]. *)
Definition json_load (t : string) : M json :=
  match json_loads t with
  | Some v => ret v
  | None => raise JSONDecodeError
  end.

Definition load_portfolio (e : env) : M json :=
  try_except
    (current_mtime <- stat_mtime e ;;
     s <- get_state ;;
     (if (is_None (data (_portfolio_cache s))
          || (current_mtime >? last_modified (_portfolio_cache s)))%bool
      then
        t <- open_portfolio e ;;
        v <- json_load t ;;
        set_data v ;;
        set_last_modified current_mtime ;;
        print PortfolioReloaded
      else ret tt) ;;
     s' <- get_state ;;
     ret (data (_portfolio_cache s')))
    (fun _ => print PortfolioError ;; ret (JObject [])).

(** [section == name]. *)
Definition section_is (section : option string) (name : string) : bool :=
  match section with
  | Some s => String.eqb s name
  | None => false
  end.

(** [json.dumps(portfolio_data.get(key, []), ensure_ascii=False, indent=2)]. *)
Definition dumps_section (portfolio_data : json) (key : string) : M string :=
  match portfolio_data with
  | JObject d => ret (dumps (get key (JArray []) d))
  | _ => raise AttributeError
  end.

Definition keyword_context (e : env) (section : option string)
  (question : string) : M string :=
  portfolio_data <- load_portfolio e ;;
  let q := str_lower question in
  if (section_is section "PROJECTS"
      || Py.any_in ["project"; "built"; "develop"] q)%bool
  then dumps_section portfolio_data "projects"
  else if (section_is section "SKILLS"
           || Py.any_in ["stack"; "skill"; "tech"; "language"; "framework"]
                q)%bool
  then dumps_section portfolio_data "skills"
  else if (section_is section "EXPERIENCE"
           || Py.any_in ["work"; "job"; "company"; "experience"; "role"] q)%bool
  then dumps_section portfolio_data "experience"
  else if (section_is section "EDUCATION"
           || Py.any_in ["degree"; "university"; "education"; "study";
                         "college"] q)%bool
  then dumps_section portfolio_data "education"
  else if (section_is section "CERTIFICATIONS"
           || Py.any_in ["cert"; "certification"; "certified"] q)%bool
  then dumps_section portfolio_data "certifications"
  else ret (dumps portfolio_data).

(** [DenseRetriever()]: the imports and the model, the index, then the
    metadata; any failure is printed and raised again. *)
Definition DenseRetriever_init (e : env) : M DenseRetriever :=
  try_except
    (if sentence_transformer e then
       match INDEX_PATH e with
       | Some (Some found) =>
           match META_PATH e with
           | Some (Some meta) =>
               print IndexLoaded ;;
               ret {| index_search := found; chunks := meta |}
           | Some None => raise JSONDecodeError
           | None => raise OSError
           end
       | _ => raise LoadError
       end
     else raise LoadError)
    (fun ex => print IndexNotLoaded ;; raise ex).

(** The loop of [search] over the row of indices. *)
Fixpoint select_chunks (all_chunks : list (string * string))
  (indices : list Z) (selected_chunks : list string)
  : result (list string) :=
  match indices with
  | [] => Ok selected_chunks
  | idx :: rest =>
      if idx <? Z.of_nat (length all_chunks) then
        match Py.getitem all_chunks idx with
        | Some (chunk_id, chunk_text) =>
            select_chunks all_chunks rest (selected_chunks ++ [chunk_text])
        | None => Raise IndexError
        end
      else select_chunks all_chunks rest selected_chunks
  end.

Definition search (self : DenseRetriever) (question : string) (top_k : Z)
  : result string :=
  match index_search self question top_k with
  | None => Raise SearchError
  | Some indices =>
      match select_chunks (chunks self) indices [] with
      | Ok selected_chunks =>
          Ok (Py.join (newline ++ newline) selected_chunks)
      | Raise ex => Raise ex
      end
  end.

Definition dense_context (e : env) (question : string) (top_k : Z)
  : M string :=
  if (negb (exists_ (INDEX_PATH e)) || negb (exists_ (META_PATH e)))%bool
  then ret ""
  else
    s <- get_state ;;
    loaded <- match _dense_retriever s with
              | None =>
                  try_except
                    (emit Construct ;;
                     r <- DenseRetriever_init e ;;
                     set_retriever r ;;
                     ret true)
                    (fun _ => ret false)
              | Some _ => ret true
              end ;;
    if (loaded : bool) then
      try_except
        (s' <- get_state ;;
         match _dense_retriever s' with
         | Some r => emit Search ;; lift (search r question top_k)
         | None => raise AttributeError
         end)
        (fun _ => print VectorSearchError ;; ret "")
    else ret "".

(** [os.getenv(name, default)] given the variable's value. *)
Definition getenv (value : option string) (default : string) : string :=
  match value with
  | Some v => v
  | None => default
  end.

(** [os.getenv(ENABLE_RAG, false).lower() == true], on the texts. *)
Definition rag_enabled (e : env) : bool :=
  String.eqb (str_lower (getenv (ENABLE_RAG e) "false")) "true".

(** The truth value of a string: it is not empty. *)
Definition truthy (s : string) : bool :=
  match s with
  | EmptyString => false
  | String _ _ => true
  end.

Definition select_context (e : env) (section : option string)
  (question : string) : M string :=
  found <- (if rag_enabled e then
              vector_context <- dense_context e question 5 ;;
              if truthy vector_context
              then print UsingVector ;; ret (Some vector_context)
              else ret None
            else ret None) ;;
  match found with
  | Some vector_context => ret vector_context
  | None => print UsingKeyword ;; keyword_context e section question
  end.

(** [f"{name}"]. *)
Definition format_name (name : json) : string :=
  match name with
  | JString s => s
  | v => py_str v
  end.

(** [item[key]]. *)
Definition item_at (key : string) (item : list (string * json))
  : result json :=
  match lookup key item with
  | Some v => Ok v
  | None => Raise KeyError
  end.

(** [links.append(l)]. *)
Definition append (links : list link) (l : link) : list link :=
  (links ++ [l])%list.

(** [if repo in item: ...]. *)
Definition visit_repo (links : list link) (item : list (string * json))
  : result (list link) :=
  if has_key "repo" item then
    let name := get "name" (JString "Project") item in
    (u <- item_at "repo" item ;;
     Ok (append links {| label := JString (format_name name ++ " - GitHub");
                         url := u |}))%result
  else Ok links.

(** [if demo in item: ...]. *)
Definition visit_demo (links : list link) (item : list (string * json))
  : result (list link) :=
  if has_key "demo" item then
    let name := get "name" (JString "Project") item in
    (u <- item_at "demo" item ;;
     Ok (append links {| label := JString (format_name name ++ " - Live Demo");
                         url := u |}))%result
  else Ok links.

(** [if url in item and name in item: ...]. *)
Definition visit_url (links : list link) (item : list (string * json))
  : result (list link) :=
  if (has_key "url" item && has_key "name" item)%bool then
    (n <- item_at "name" item ;;
     u <- item_at "url" item ;;
     Ok (append links {| label := n; url := u |}))%result
  else Ok links.

(** The body of the loop of [extract_links] for one item. *)
Definition visit_item (links : list link) (item : json)
  : result (list link) :=
  match item with
  | JObject d =>
      (links1 <- visit_repo links d ;;
       links2 <- visit_demo links1 d ;;
       visit_url links2 d)%result
  | _ => Ok links
  end.

(** [for item in data: ...]. *)
Fixpoint visit_items (links : list link) (items : list json)
  : result (list link) :=
  match items with
  | [] => Ok links
  | item :: rest =>
      (links' <- visit_item links item ;;
       visit_items links' rest)%result
  end.

Definition extract_links (context : string) : list link :=
  match
    (data <- match json_loads context with
             | Some v => Ok v
             | None => Raise JSONDecodeError
             end ;;
     links <- match data with
              | JArray items => visit_items [] items
              | _ => Ok []
              end ;;
     Ok (Py.slice_to 4 links))%result
  with
  | Ok links => links
  | Raise _ => []
  end.

Definition reload_portfolio (e : env) : M json :=
  set_last_modified 0 ;;
  load_portfolio e.

End Store.

(** ** Reading the functions

    Definitions the statements below are written with.  [logged evs s] is
    [s] after the events [evs] (newest first) were logged; [stale s t] is
    the reload test of [load_portfolio] for a file modified at [t]. *)

Definition logged (evs : list event) (s : state) : state :=
  {| _portfolio_cache := _portfolio_cache s;
     _dense_retriever := _dense_retriever s;
     log := (evs ++ log s)%list |}.

Definition stale (s : state) (current_mtime : Z) : bool :=
  (is_None (data (_portfolio_cache s))
   || (current_mtime >? last_modified (_portfolio_cache s)))%bool.

(** The state after a reload that read the document [v] from a file
    modified at [t]. *)
Definition reloaded (v : json) (t : Z) (s : state) : state :=
  {| _portfolio_cache := {| data := v; last_modified := t |};
     _dense_retriever := _dense_retriever s;
     log := PortfolioReloaded :: OpenPortfolio :: log s |}.

(** The ways a call of [load_portfolio] fails inside its [try]: the file
    cannot be stat-ed; a reload is due and the file cannot be opened or
    read; a reload is due and the text is rejected by the parser. *)
Inductive load_failure (json_loads : string -> option json) (e : env)
  (s : state) : Prop :=
| stat_fails :
    PORTFOLIO_PATH e = None -> load_failure json_loads e s
| read_fails (f : file) :
    PORTFOLIO_PATH e = Some f -> stale s (st_mtime f) = true ->
    text f = None -> load_failure json_loads e s
| parse_fails (f : file) (t : string) :
    PORTFOLIO_PATH e = Some f -> stale s (st_mtime f) = true ->
    text f = Some t -> json_loads t = None -> load_failure json_loads e s.

(** The number of reads of the portfolio file so far. *)
Definition disk_reads (s : state) : nat := count OpenPortfolio (log s).

(** The router's table as the specification words it: for each section
    the hint that names it, its keywords and its key in the document, in
    priority order. *)
Record route_entry : Type := {
  hint : string;
  keywords : list string;
  key : string
}.

Definition projects_entry : route_entry :=
  {| hint := "PROJECTS";
     keywords := ["project"; "built"; "develop"];
     key := "projects" |}.

Definition skills_entry : route_entry :=
  {| hint := "SKILLS";
     keywords := ["stack"; "skill"; "tech"; "language"; "framework"];
     key := "skills" |}.

Definition experience_entry : route_entry :=
  {| hint := "EXPERIENCE";
     keywords := ["work"; "job"; "company"; "experience"; "role"];
     key := "experience" |}.

Definition education_entry : route_entry :=
  {| hint := "EDUCATION";
     keywords := ["degree"; "university"; "education"; "study"; "college"];
     key := "education" |}.

Definition certifications_entry : route_entry :=
  {| hint := "CERTIFICATIONS";
     keywords := ["cert"; "certification"; "certified"];
     key := "certifications" |}.

Definition priority_order : list route_entry :=
  [projects_entry; skills_entry; experience_entry; education_entry;
   certifications_entry].

(** The question (already in lower case) contains a keyword of the entry. *)
Definition mentions (q : string) (entry : route_entry) : bool :=
  Py.any_in (keywords entry) q.

(** The entry is taken: the hint names it or the question mentions it. *)
Definition selects (section : option string) (q : string)
  (entry : route_entry) : bool :=
  (section_is section (hint entry) || mentions q entry)%bool.

(** The context for the entry the table search ended on: the section's
    block, or the whole document when no entry was taken. *)
Definition routed (portfolio_data : json) (found : option route_entry)
  : M string :=
  match found with
  | Some entry => dumps_section portfolio_data (key entry)
  | None => ret (dumps portfolio_data)
  end.

(** What [DenseRetriever()] builds from the environment, [None] when it
    raises. *)
Definition construction (e : env) : option DenseRetriever :=
  if sentence_transformer e then
    match INDEX_PATH e, META_PATH e with
    | Some (Some found), Some (Some meta) =>
        Some {| index_search := found; chunks := meta |}
    | _, _ => None
    end
  else None.

(** [s] with the retriever [r] stored in the global. *)
Definition with_retriever (r : DenseRetriever) (s : state) : state :=
  {| _portfolio_cache := _portfolio_cache s;
     _dense_retriever := Some r;
     log := log s |}.

(** The call [_dense_retriever.search(question, top_k)] inside its [try]. *)
Definition searched (r : DenseRetriever) (question : string) (top_k : Z)
  (s : state) : result string * state :=
  match search r question top_k with
  | Ok context => (Ok context, logged [Search] s)
  | Raise _ => (Ok "", logged [VectorSearchError; Search] s)
  end.

(** The same call on a stdout given by [prints]: when [search] raises and
    the message of the handler cannot be written, the exception of the
    print leaves [dense_context]. *)
Definition searched_on (prints : event -> bool) (r : DenseRetriever)
  (question : string) (top_k : Z) (s : state) : result string * state :=
  match search r question top_k with
  | Ok context => (Ok context, logged [Search] s)
  | Raise _ =>
      if prints VectorSearchError
      then (Ok "", logged [VectorSearchError; Search] s)
      else (Raise UnicodeEncodeError, logged [Search] s)
  end.

(** The log after a construction that failed: the message of the handler
    of [__init__] is there when it could be written. *)
Definition construction_failed (prints : event -> bool) (s : state) : state :=
  logged (if prints IndexNotLoaded then [IndexNotLoaded; Construct]
          else [Construct]) s.

(** The [except] branch of [load_portfolio], entered in the state [s]. *)
Definition load_failed (prints : event -> bool) (s : state)
  : result json * state :=
  if prints PortfolioError then (Ok (JObject []), logged [PortfolioError] s)
  else (Raise UnicodeEncodeError, s).

(** The state in which the document [v] read from a file modified at [t]
    is in the cache and its message is still to be printed. *)
Definition cached (v : json) (t : Z) (s : state) : state :=
  {| _portfolio_cache := {| data := v; last_modified := t |};
     _dense_retriever := _dense_retriever s;
     log := OpenPortfolio :: log s |}.


(** What one slot [idx] of the index row adds to the selected texts when
    the last chunk's text is [last_text]: the padding index -1 adds the
    last chunk, an index within the list adds its chunk, an index past the
    end adds nothing. *)
Definition slot_texts (all_chunks : list (string * string))
  (last_text : string) (idx : Z) : list string :=
  if idx =? -1 then [last_text]
  else match nth_error all_chunks (Z.to_nat idx) with
       | Some (_, chunk_text) => [chunk_text]
       | None => []
       end.

(** The links one record yields, in the order the loop appends them: the
    repository, the demo, then the record's own url. *)
Definition record_links (py_str : json -> string) (item : json) : list link :=
  match item with
  | JObject d =>
      ((if has_key "repo" d
        then [{| label := JString (format_name py_str
                                     (get "name" (JString "Project") d)
                                   ++ " - GitHub");
                 url := get "repo" JNull d |}]
        else [])
       ++ (if has_key "demo" d
           then [{| label := JString (format_name py_str
                                        (get "name" (JString "Project") d)
                                      ++ " - Live Demo");
                    url := get "demo" JNull d |}]
           else [])
       ++ (if (has_key "url" d && has_key "name" d)%bool
           then [{| label := get "name" JNull d; url := get "url" JNull d |}]
           else []))%list
  | _ => []
  end.

(** The value is a JSON array. *)
Definition is_list (v : json) : bool :=
  match v with
  | JArray _ => true
  | _ => false
  end.

(** The calls a process makes on the module, and the states they lead to
    from the initial one, each call in the environment of its moment. *)
Inductive call : Type :=
| LoadPortfolio
| ReloadPortfolio
| KeywordContext (section : option string) (question : string)
| DenseContext (question : string) (top_k : Z)
| SelectContext (section : option string) (question : string).

Definition after_call (json_loads : string -> option json)
  (str_lower : string -> string) (prints : event -> bool) (e : env)
  (c : call) (s : state) : state :=
  match c with
  | LoadPortfolio => snd (load_portfolio json_loads prints e s)
  | ReloadPortfolio => snd (reload_portfolio json_loads prints e s)
  | KeywordContext section question =>
      snd (keyword_context json_loads str_lower prints e section question s)
  | DenseContext question top_k =>
      snd (dense_context prints e question top_k s)
  | SelectContext section question =>
      snd (select_context json_loads str_lower prints e section question s)
  end.

Inductive reachable (json_loads : string -> option json)
  (str_lower : string -> string) (prints : event -> bool)
  : state -> Prop :=
| reachable_initial : reachable json_loads str_lower prints initial
| reachable_call (e : env) (c : call) (s : state) :
    reachable json_loads str_lower prints s ->
    reachable json_loads str_lower prints
      (after_call json_loads str_lower prints e c s).

(** Successful constructions and calls of [search] so far. *)
Definition constructions (s : state) : nat := count IndexLoaded (log s).

Definition attempts (s : state) : nat := count Construct (log s).

Definition searches (s : state) : nat := count Search (log s).

(** What holds of the retriever global in every state a process reaches:
    while it is [None] nothing was built and [search] was never called;
    once it is set exactly one construction has succeeded. *)
Definition built_once (s : state) : Prop :=
  match _dense_retriever s with
  | None => constructions s = 0%nat /\ searches s = 0%nat
  | Some _ => constructions s = 1%nat
  end.

(** [s'] differs from [s] in nothing the dense retriever is concerned
    with. *)
Definition same_dense (s s' : state) : Prop :=
  _dense_retriever s' = _dense_retriever s
  /\ constructions s' = constructions s
  /\ attempts s' = attempts s
  /\ searches s' = searches s.

(** ** Sample data

    A parser given by a finite table of texts and their values (every other
    text is rejected), a small portfolio document, the files around it and
    a retriever over two chunks. *)

Definition table_loads (table : list (string * json)) (s : string)
  : option json :=
  match find (fun entry => String.eqb (fst entry) s) table with
  | Some entry => Some (snd entry)
  | None => None
  end.

(** A stand-in for [str] on the values that are no strings. *)
Definition sample_str (v : json) : string := dumps v.

Definition sample_projects : json :=
  JArray [JObject [("name", JString "Solver");
                   ("repo", JString "https://example.org/solver");
                   ("demo", JString "https://example.org/solver/demo")]].

Definition sample_education : json :=
  JArray [JObject [("degree", JString "MSc");
                   ("institution", JString "Example University")]].

Definition sample_certifications : json :=
  JArray [JObject [("name", JString "Cloud Basics");
                   ("url", JString "https://example.org/cert")];
          JObject [("name", JString "Cloud Advanced");
                   ("url", JString "https://example.org/cert")]].

Definition sample_portfolio : json :=
  JObject [("about", JString "An engineer.");
           ("skills", JArray [JObject [("name", JString "Rocq")]]);
           ("projects", sample_projects);
           ("education", sample_education);
           ("certifications", sample_certifications)].

Definition updated_portfolio : json :=
  JObject [("about", JString "Updated.")].

Definition sample_loads : string -> option json :=
  table_loads [(dumps sample_portfolio, sample_portfolio);
               (dumps sample_projects, sample_projects);
               (dumps sample_education, sample_education);
               (dumps sample_certifications, sample_certifications);
               (dumps updated_portfolio, updated_portfolio)].

(** An environment without index artifacts whose portfolio file holds
    [content] and was modified at [mtime]. *)
Definition keyword_env (flag : option string) (mtime : Z) (content : string)
  : env :=
  {| ENABLE_RAG := flag;
     PORTFOLIO_PATH := Some {| st_mtime := mtime; text := Some content |};
     INDEX_PATH := None;
     META_PATH := None;
     sentence_transformer := false |}.

Definition sample_env : env :=
  keyword_env None 1700000000 (dumps sample_portfolio).

(** An environment whose portfolio file is missing. *)
Definition missing_env : env :=
  {| ENABLE_RAG := None;
     PORTFOLIO_PATH := None;
     INDEX_PATH := None;
     META_PATH := None;
     sentence_transformer := false |}.

(** A portfolio file whose text is no JSON. *)
Definition broken_env : env := keyword_env None 1700000000 "{ broken".

(** A portfolio file stamped with the epoch, as deployments that reset
    timestamps leave it. *)
Definition epoch_env (content : string) : env := keyword_env None 0 content.

(** A retriever over two chunks whose index holds two vectors: asked for
    five neighbours it pads the row with -1. *)
Definition small_retriever : DenseRetriever :=
  {| index_search := fun _ top_k =>
                       if top_k =? 5 then Some [1; 0; -1; -1; -1] else None;
     chunks := [("about", "About: An engineer.");
                ("skills:0", "Skill: Rocq")] |}.

(** Both artifacts are on disk, and the sentence-transformers import
    fails. *)
Definition no_library_env : env :=
  {| ENABLE_RAG := Some "true";
     PORTFOLIO_PATH := Some {| st_mtime := 1700000000;
                               text := Some (dumps sample_portfolio) |};
     INDEX_PATH := Some (Some (index_search small_retriever));
     META_PATH := Some (Some (chunks small_retriever));
     sentence_transformer := false |}.

(** Both artifacts are on disk and everything loads. *)
Definition dense_env : env :=
  {| ENABLE_RAG := Some "true";
     PORTFOLIO_PATH := Some {| st_mtime := 1700000000;
                               text := Some (dumps sample_portfolio) |};
     INDEX_PATH := Some (Some (index_search small_retriever));
     META_PATH := Some (Some (chunks small_retriever));
     sentence_transformer := true |}.

(** ** The callers: router.py, main.py and the rule-based provider *)

(** The truth value of a parsed value: [None], [False], zero and the empty
    string, list and dict are false. *)
Definition truth (v : json) : bool :=
  match v with
  | JNull => false
  | JBool b => b
  | JInt z => negb (z =? 0)
  | JFloat r => negb (String.eqb r "0.0" || String.eqb r "-0.0")
  | JString s => truthy s
  | JArray items => match items with [] => false | _ :: _ => true end
  | JObject members => match members with [] => false | _ :: _ => true end
  end.

(** [section or default]. *)
Definition or_default (section : option string) (default : string) : string :=
  match section with
  | Some s => if truthy s then s else default
  | None => default
  end.

(** [n] calls of [load_portfolio] in a row, all in the environment [e]. *)
Fixpoint load_times (json_loads : string -> option json)
  (prints : event -> bool) (n : nat) (e : env) (s : state) : state :=
  match n with
  | O => s
  | S n' =>
      load_times json_loads prints n' e
        (snd (load_portfolio json_loads prints e s))
  end.

(** The value is a JSON object. *)
Definition is_dict (v : json) : bool :=
  match v with
  | JObject _ => true
  | _ => false
  end.

Module Router.

Record ChatRequest : Type := {
  question : string;
  section : option string;
  conversationId : option string
}.

(** The dict [get_chat_context] returns; [shown_section] is its key
    [section]. *)
Record ContextReply : Type := {
  context : string;
  links : list link;
  shown_section : string
}.

Section Routes.

Variable json_loads : string -> option json.
Variable py_str : json -> string.
Variable str_lower : string -> string.
Variable prints : event -> bool.

Definition get_sections (e : env) : M json :=
  load_portfolio json_loads prints e.

Definition get_chat_context (e : env) (body : ChatRequest) : M ContextReply :=
  context <- select_context json_loads str_lower prints e (section body)
               (question body) ;;
  let links := extract_links json_loads py_str context in
  ret {| context := context;
         links := links;
         shown_section := or_default (section body) "Overview" |}.

End Routes.

End Router.

Module RuleBased.

Section Provider.

Variable json_loads : string -> option json.
Variable str_lower : string -> string.

(** What each [_answer_*] does after its emptiness test: the formatting of
    the answer from the section's value [skills], [projects], ..., and for
    the overview the summary built from the three counts. *)
Variable skills_answer : json -> result (json * list link).
Variable projects_answer : json -> result (json * list link).
Variable experience_answer : json -> result (json * list link).
Variable education_answer : json -> result (json * list link).
Variable certifications_answer : json -> result (json * list link).
Variable overview_summary : json -> json -> json -> result (json * list link).

(** [data.get(key, default)] on whatever [data] is. *)
Definition data_get (data : json) (key : string) (default : json)
  : result json :=
  match data with
  | JObject d => Ok (get key default d)
  | _ => Raise AttributeError
  end.

(** The common head of [_answer_skills] ... [_answer_certifications]: get
    the section, answer that there is none when it is empty. *)
Definition section_answer (data : json) (key : string) (none : string)
  (rest : json -> result (json * list link)) : result (json * list link) :=
  (value <- data_get data key (JArray []) ;;
   if negb (truth value) then Ok (JString none, []) else rest value)%result.

Definition _answer_skills (data : json) (question : string)
  : result (json * list link) :=
  section_answer data "skills" "I don't have skills information available."
    skills_answer.

Definition _answer_projects (data : json) (question : string)
  : result (json * list link) :=
  section_answer data "projects" "I don't have project information available."
    projects_answer.

Definition _answer_experience (data : json) (question : string)
  : result (json * list link) :=
  section_answer data "experience"
    "I don't have work experience information available." experience_answer.

Definition _answer_education (data : json) (question : string)
  : result (json * list link) :=
  section_answer data "education"
    "I don't have education information available." education_answer.

Definition _answer_certifications (data : json) (question : string)
  : result (json * list link) :=
  section_answer data "certifications"
    "I don't have certification information available." certifications_answer.

Definition _answer_overview (data : json) : result (json * list link) :=
  (about <- data_get data "about" (JString "") ;;
   if truth about then Ok (about, [])
   else
     skills <- data_get data "skills" (JArray []) ;;
     projects <- data_get data "projects" (JArray []) ;;
     experience <- data_get data "experience" (JArray []) ;;
     overview_summary skills projects experience)%result.

Definition answer (question context : string) : result (json * list link) :=
  let q_lower := str_lower question in
  let ctx_data := match json_loads context with
                  | Some v => v
                  | None => JObject []
                  end in
  if Py.any_in ["skill"; "tech"; "stack"; "technology"] q_lower
  then _answer_skills ctx_data q_lower
  else if Py.any_in ["project"; "built"; "develop"; "work on"] q_lower
  then _answer_projects ctx_data q_lower
  else if Py.any_in ["experience"; "work"; "job"; "company"] q_lower
  then _answer_experience ctx_data q_lower
  else if Py.any_in ["education"; "degree"; "university"; "study"] q_lower
  then _answer_education ctx_data q_lower
  else if Py.any_in ["certification"; "certified"; "cert"] q_lower
  then _answer_certifications ctx_data q_lower
  else _answer_overview ctx_data.

End Provider.

End RuleBased.

Module Main.

Record ChatRequest : Type := {
  question : string;
  section : option string;
  conversationId : option string
}.

Record ChatResponse : Type := {
  answer : string;
  links : list link;
  chips : list string
}.

(** What an endpoint gives back: its response, or the [HTTPException] it
    raises (the detail text is left out).  An exception that escapes the
    handler, as the one of its own print would, reaches the client with
    the same status 500 and is not told apart. *)
Inductive http (A : Type) : Type :=
| Response (a : A)
| HTTPException (status_code : Z).

Arguments Response {A} a.
Arguments HTTPException {A} status_code.

(** [provider.answer(question, context)]: the answer text and the links,
    or the exception it raises. *)
Definition Provider : Type := string -> string -> result (json * list link).

(** [hash(v)] does not raise: lists and dicts are unhashable. *)
Definition hashable (v : json) : bool :=
  match v with
  | JArray _ | JObject _ => false
  | _ => true
  end.

Section Chat.

Variable json_loads : string -> option json.
Variable py_str : json -> string.
Variable str_lower : string -> string.
Variable prints : event -> bool.

(** [a == b] of the runtime on hashable values. *)
Variable py_eq : json -> json -> bool.

(** The validation of the field [answer: str] on a value that is no
    string: the string it is coerced to, or [None] when it is refused. *)
Variable pydantic_str : json -> option string.

(** [u in seen_urls]; [None] is the [TypeError] of an unhashable [u]. *)
Definition in_set (u : json) (seen_urls : list json) : option bool :=
  if hashable u then Some (existsb (py_eq u) seen_urls) else None.

(** The loop over [all_links] that fills [unique_links] and [seen_urls]. *)
Fixpoint unique_loop (all_links unique_links : list link)
  (seen_urls : list json) : option (list link) :=
  match all_links with
  | [] => Some unique_links
  | link :: rest =>
      match in_set (url link) seen_urls with
      | Some false =>
          unique_loop rest (unique_links ++ [link]) (seen_urls ++ [url link])
      | Some true => unique_loop rest unique_links seen_urls
      | None => None
      end
  end.

(** [ChatResponse(answer=answer_text, links=..., chips=...)]. *)
Definition validate (answer_text : json) (links : list link)
  (chips : list string) : option ChatResponse :=
  match match answer_text with
        | JString text => Some text
        | v => pydantic_str v
        end with
  | Some text => Some {| answer := text; links := links; chips := chips |}
  | None => None
  end.

Definition chat (e : env) (provider : Provider) (body : ChatRequest)
  (s : state) : http ChatResponse * state :=
  match select_context json_loads str_lower prints e (section body)
          (question body) s with
  | (Ok context, s') =>
      match provider (question body) context with
      | Ok (answer_text, provider_links) =>
          let context_links := extract_links json_loads py_str context in
          let all_links := (provider_links ++ context_links)%list in
          match unique_loop all_links [] [] with
          | Some unique_links =>
              let chips := [or_default (section body) "Overview"] in
              match validate answer_text (Py.slice_to 4 unique_links) chips with
              | Some response => (Response response, s')
              | None => (HTTPException 500, s')
              end
          | None => (HTTPException 500, s')
          end
      | Raise _ => (HTTPException 500, s')
      end
  | (Raise _, s') => (HTTPException 500, s')
  end.

End Chat.

End Main.

(** The keywords the rule-based provider answers a topic for, and the
    answers it gives when the topic's section is empty. *)
Definition rule_based_topics : list string :=
  (["skill"; "tech"; "stack"; "technology"]
   ++ ["project"; "built"; "develop"; "work on"]
   ++ ["experience"; "work"; "job"; "company"]
   ++ ["education"; "degree"; "university"; "study"]
   ++ ["certification"; "certified"; "cert"])%list.

Definition no_information : list string :=
  ["I don't have skills information available.";
   "I don't have project information available.";
   "I don't have work experience information available.";
   "I don't have education information available.";
   "I don't have certification information available."].

(** Two links are kept apart by the loop of [chat]: the later one's url
    was not found equal to the earlier one's. *)
Definition apart (py_eq : json -> json -> bool) (earlier later : link)
  : Prop :=
  py_eq (url later) (url earlier) = false.

(** Sample data for the callers: [==] on urls that are strings, a
    validation that refuses what is no string, a provider that answers
    with one link, and stand-ins for the formatting of the rule-based
    answers. *)
Definition string_eq (a b : json) : bool :=
  match a, b with
  | JString x, JString y => String.eqb x y
  | _, _ => false
  end.

Definition refuse (v : json) : option string := None.

Definition sample_provider : Main.Provider :=
  fun _ _ =>
    Ok (JString "See the repository.",
        [{| label := JString "Repository";
            url := JString "https://example.org/solver" |}]).

Definition plain_answer (v : json) : result (json * list link) :=
  Ok (JString (dumps v), []).

Definition plain_summary (skills projects experience : json)
  : result (json * list link) :=
  Ok (JString "summary", []).

Definition sample_rule_based : Main.Provider :=
  RuleBased.answer sample_loads Py.lower plain_answer plain_answer
    plain_answer plain_answer plain_answer plain_summary.

Definition projects_request : Main.ChatRequest :=
  {| Main.question := "Which projects did you build?";
     Main.section := None;
     Main.conversationId := None |}.

(** A project whose repository field is a list of urls. *)
Definition listed_repo_projects : json :=
  JArray [JObject [("name", JString "Solver");
                   ("repo", JArray [JString "https://example.org/solver"])]].

Definition listed_repo_portfolio : json :=
  JObject [("projects", listed_repo_projects)].

Definition listed_repo_loads : string -> option json :=
  table_loads [(dumps listed_repo_portfolio, listed_repo_portfolio);
               (dumps listed_repo_projects, listed_repo_projects)].


(** The portfolio file a minute later, holding the updated document. *)
Definition later_env : env :=
  keyword_env None 1700000060 (dumps updated_portfolio).

Definition listed_repo_env : env :=
  keyword_env None 1700000000 (dumps listed_repo_portfolio).

(** A retriever whose metadata list is empty and whose index pads the
    row. *)
Definition empty_retriever : DenseRetriever :=
  {| index_search := fun _ _ => Some [-1]; chunks := [] |}.

Definition router_projects_request : Router.ChatRequest :=
  {| Router.question := "Which projects did you build?";
     Router.section := None;
     Router.conversationId := None |}.

Definition router_greeting_request : Router.ChatRequest :=
  {| Router.question := "Hello there";
     Router.section := Some "";
     Router.conversationId := None |}.

(** What [chat] answers to [projects_request] with [sample_provider]. *)
Definition sample_response : Main.ChatResponse :=
  {| Main.answer := "See the repository.";
     Main.links :=
       [{| label := JString "Repository";
           url := JString "https://example.org/solver" |};
        {| label := JString "Solver - Live Demo";
           url := JString "https://example.org/solver/demo" |}];
     Main.chips := ["Overview"] |}.

Ltac unfold_py :=
  unfold print, utf8, bind, ret, raise, try_except, lift, get_state, emit,
    set_data, set_last_modified, set_retriever in *.

(** ** Properties of the store

    A statement that binds [prints] holds on every stdout.  A statement
    written with [utf8] is about a process whose stdout writes every
    message, so that no print raises. *)

Section Properties.

Variable json_loads : string -> option json.
Variable py_str : json -> string.
Variable str_lower : string -> string.

(** [load_portfolio] case by case: no file, a fresh cache, a file that
    cannot be read, a text that does not parse, a successful reload. *)
Lemma load_portfolio_cases (e : env) (s : state) :
  load_portfolio json_loads utf8 e s =
  match PORTFOLIO_PATH e with
  | None => (Ok (JObject []), logged [PortfolioError] s)
  | Some f =>
      if stale s (st_mtime f) then
        match text f with
        | None => (Ok (JObject []), logged [PortfolioError; OpenPortfolio] s)
        | Some t =>
            match json_loads t with
            | None =>
                (Ok (JObject []), logged [PortfolioError; OpenPortfolio] s)
            | Some v => (Ok v, reloaded v (st_mtime f) s)
            end
        end
      else (Ok (data (_portfolio_cache s)), s)
  end.
Proof.
  unfold load_portfolio, stat_mtime, open_portfolio, json_load, stale.
  unfold_py.
  destruct (PORTFOLIO_PATH e) as [f|]; [|reflexivity].
  destruct (is_None (data (_portfolio_cache s))
            || (st_mtime f >? last_modified (_portfolio_cache s)))%bool;
    [|reflexivity].
  destruct (text f) as [t|]; [|reflexivity].
  destruct (json_loads t); reflexivity.
Qed.

(** [load_portfolio] on any stdout.  A failure inside the [try] reaches
    the handler, whose print is outside every [try]; so does the failure
    of the print that follows a reload, with the document already in the
    cache. *)
Lemma load_portfolio_print_cases (prints : event -> bool) (e : env)
  (s : state) :
  load_portfolio json_loads prints e s =
  match PORTFOLIO_PATH e with
  | None => load_failed prints s
  | Some f =>
      if stale s (st_mtime f) then
        match text f with
        | None => load_failed prints (logged [OpenPortfolio] s)
        | Some t =>
            match json_loads t with
            | None => load_failed prints (logged [OpenPortfolio] s)
            | Some v =>
                if prints PortfolioReloaded
                then (Ok v, reloaded v (st_mtime f) s)
                else load_failed prints (cached v (st_mtime f) s)
            end
        end
      else (Ok (data (_portfolio_cache s)), s)
  end.
Proof.
  unfold load_portfolio, stat_mtime, open_portfolio, json_load, stale,
    load_failed, cached.
  unfold_py.
  destruct (PORTFOLIO_PATH e) as [f|];
    [|destruct (prints PortfolioError); reflexivity].
  destruct (is_None (data (_portfolio_cache s))
            || (st_mtime f >? last_modified (_portfolio_cache s)))%bool;
    [|reflexivity].
  destruct (text f) as [t|];
    [|destruct (prints PortfolioError); reflexivity].
  destruct (json_loads t);
    [|destruct (prints PortfolioError); reflexivity].
  destruct (prints PortfolioReloaded); [reflexivity|].
  destruct (prints PortfolioError); reflexivity.
Qed.

(** C7: when the stat, the read or the parse fails and the message of the
    handler cannot be written to stdout, [load_portfolio] raises the
    exception of that print instead of returning the empty document: the
    print of the [except] branch is guarded by nothing. *)
Theorem load_portfolio_raises_on_failure (prints : event -> bool) (e : env)
  (s : state) :
  load_failure json_loads e s ->
  prints PortfolioError = false ->
  fst (load_portfolio json_loads prints e s) = Raise UnicodeEncodeError.
Proof.
  intros Hfail Hprint. rewrite load_portfolio_print_cases.
  unfold load_failed. rewrite Hprint.
  destruct Hfail as [Hp | f Hp Hs Ht | f t Hp Hs Ht Hj].
  - rewrite Hp. reflexivity.
  - rewrite Hp, Hs, Ht. reflexivity.
  - rewrite Hp, Hs, Ht, Hj. reflexivity.
Qed.

(** On a stdout that writes the message of the handler, [load_portfolio]
    raises nothing, and whenever the stat, the read or the parse fails it
    returns the empty document [{}] and leaves the cache as it was. *)
Lemma load_portfolio_failure_is_empty (prints : event -> bool) (e : env)
  (s : state) :
  prints PortfolioError = true ->
  (exists doc, fst (load_portfolio json_loads prints e s) = Ok doc)
  /\ (load_failure json_loads e s ->
      fst (load_portfolio json_loads prints e s) = Ok (JObject [])
      /\ _portfolio_cache (snd (load_portfolio json_loads prints e s))
         = _portfolio_cache s).
Proof.
  intros Hprint. rewrite load_portfolio_print_cases.
  unfold load_failed. rewrite Hprint. split.
  - destruct (PORTFOLIO_PATH e) as [f|]; [|eexists; reflexivity].
    destruct (stale s (st_mtime f)); [|eexists; reflexivity].
    destruct (text f) as [t|]; [|eexists; reflexivity].
    destruct (json_loads t); [|eexists; reflexivity].
    destruct (prints PortfolioReloaded); eexists; reflexivity.
  - intros [Hp | f Hp Hs Ht | f t Hp Hs Ht Hj].
    + rewrite Hp. split; reflexivity.
    + rewrite Hp, Hs, Ht. split; reflexivity.
    + rewrite Hp, Hs, Ht, Hj. split; reflexivity.
Qed.

(** The failures listed are all there are: the error is printed exactly
    when one of them occurs. *)
Lemma load_failure_logged (e : env) (s : state) :
  load_failure json_loads e s
  <-> count PortfolioError (log (snd (load_portfolio json_loads utf8 e s)))
      = S (count PortfolioError (log s)).
Proof.
  rewrite load_portfolio_cases. split.
  - intros [Hp | f Hp Hs Ht | f t Hp Hs Ht Hj].
    + rewrite Hp. reflexivity.
    + rewrite Hp, Hs, Ht. reflexivity.
    + rewrite Hp, Hs, Ht, Hj. reflexivity.
  - destruct (PORTFOLIO_PATH e) as [f|] eqn:Hp;
      [|intros _; apply stat_fails; exact Hp].
    destruct (stale s (st_mtime f)) eqn:Hs;
      [|simpl; intros H; exfalso; lia].
    destruct (text f) as [t|] eqn:Ht;
      [|intros _; eapply read_fails; eassumption].
    destruct (json_loads t) as [v|] eqn:Hj;
      [|intros _; eapply parse_fails; eassumption].
    unfold reloaded, count; simpl. intros H; exfalso; lia.
Qed.

Lemma fresh_after_reload (v : json) (t : Z) (s : state) :
  v <> JNull -> stale (reloaded v t s) t = false.
Proof.
  intros Hv. unfold stale, reloaded; simpl.
  destruct v; try contradiction; simpl;
    rewrite Z.gtb_ltb, Z.ltb_irrefl; reflexivity.
Qed.

(** C5, amended: two calls of [load_portfolio] on a file whose
    modification time does not change, the first of which does not fail
    and returns a document other than [None], return the same document;
    the second call reads nothing from disk, both together read the file
    at most once, and exactly once when the cache was empty.  (On a
    stdout that writes every message.) *)
Theorem load_twice_reads_once (e1 e2 : env) (s : state) (f1 f2 : file) :
  PORTFOLIO_PATH e1 = Some f1 ->
  PORTFOLIO_PATH e2 = Some f2 ->
  st_mtime f2 = st_mtime f1 ->
  ~ load_failure json_loads e1 s ->
  fst (load_portfolio json_loads utf8 e1 s) <> Ok JNull ->
  fst (load_portfolio json_loads utf8 e2
         (snd (load_portfolio json_loads utf8 e1 s)))
  = fst (load_portfolio json_loads utf8 e1 s)
  /\ disk_reads (snd (load_portfolio json_loads utf8 e2
                        (snd (load_portfolio json_loads utf8 e1 s))))
     = disk_reads (snd (load_portfolio json_loads utf8 e1 s))
  /\ (disk_reads (snd (load_portfolio json_loads utf8 e1 s))
      <= S (disk_reads s))%nat
  /\ (data (_portfolio_cache s) = JNull ->
      disk_reads (snd (load_portfolio json_loads utf8 e1 s))
      = S (disk_reads s)).
Proof.
  intros Hp1 Hp2 Hm Hok Hdoc.
  rewrite (load_portfolio_cases e2), Hp2, Hm.
  rewrite (load_portfolio_cases e1) in *. rewrite Hp1 in *.
  destruct (stale s (st_mtime f1)) eqn:Hs.
  - destruct (text f1) as [t|] eqn:Ht;
      [|exfalso; apply Hok; eapply read_fails; eassumption].
    destruct (json_loads t) as [v|] eqn:Hj;
      [|exfalso; apply Hok; eapply parse_fails; eassumption].
    simpl in *.
    rewrite fresh_after_reload by (intros ->; apply Hdoc; reflexivity).
    simpl. repeat split; auto.
  - simpl. rewrite Hs. simpl. repeat split; auto.
    intros Hnull. unfold stale in Hs. rewrite Hnull in Hs. discriminate.
Qed.

(** X18: with a file modified after the epoch, [reload_portfolio] reads
    the file whatever the cache holds, and returns what the file holds.
    (On a stdout that writes every message.) *)
Lemma reload_portfolio_rereads (e : env) (s : state) (f : file) :
  PORTFOLIO_PATH e = Some f ->
  0 < st_mtime f ->
  disk_reads (snd (reload_portfolio json_loads utf8 e s)) = S (disk_reads s)
  /\ (forall t doc, text f = Some t -> json_loads t = Some doc ->
      fst (reload_portfolio json_loads utf8 e s) = Ok doc).
Proof.
  intros Hp Hpos. unfold reload_portfolio, bind, set_last_modified.
  rewrite load_portfolio_cases, Hp.
  assert (Hs : forall c r l,
             stale {| _portfolio_cache :=
                        {| data := c; last_modified := 0 |};
                      _dense_retriever := r; log := l |} (st_mtime f)
             = true).
  { intros c r l. unfold stale; simpl.
    apply orb_true_iff; right. apply Z.gtb_lt, Hpos. }
  rewrite Hs. split.
  - destruct (text f) as [t|]; [destruct (json_loads t)|]; reflexivity.
  - intros t doc Ht Hj. rewrite Ht, Hj. reflexivity.
Qed.

(** With a file whose modification time is not after the epoch and a
    document in the cache, [reload_portfolio] reads nothing and returns
    the cached document: the sentinel 0 is not exceeded. *)
Lemma reload_portfolio_keeps_cache (e : env) (s : state) (f : file) :
  PORTFOLIO_PATH e = Some f ->
  st_mtime f <= 0 ->
  data (_portfolio_cache s) <> JNull ->
  fst (reload_portfolio json_loads utf8 e s) = Ok (data (_portfolio_cache s))
  /\ disk_reads (snd (reload_portfolio json_loads utf8 e s)) = disk_reads s.
Proof.
  intros Hp Hold Hdata. unfold reload_portfolio, bind, set_last_modified.
  rewrite load_portfolio_cases, Hp.
  unfold stale; simpl.
  replace (st_mtime f >? 0) with false
    by (symmetry; rewrite Z.gtb_ltb; apply Z.ltb_ge; exact Hold).
  destruct (data (_portfolio_cache s)); try contradiction; simpl;
    split; reflexivity.
Qed.

(** The [if] chain of [keyword_context] is the search of the first
    selected entry of the table. *)
Lemma keyword_context_route (prints : event -> bool) (e : env)
  (section : option string) (question : string) (s : state) :
  keyword_context json_loads str_lower prints e section question s
  = (portfolio_data <- load_portfolio json_loads prints e ;;
     routed portfolio_data
       (find (selects section (str_lower question)) priority_order)) s.
Proof.
  unfold keyword_context, bind.
  destruct (load_portfolio json_loads prints e s) as [[portfolio_data|ex] s'];
    [|reflexivity].
  unfold priority_order, find, selects, mentions, routed; simpl.
  repeat match goal with
         | |- context [if ?b then _ else _] => destruct b; try reflexivity
         end.
Qed.

Lemma find_first {A : Type} (p : A -> bool) (before after : list A)
  (x : A) :
  (forall y, In y before -> p y = false) ->
  p x = true ->
  find p (before ++ x :: after) = Some x.
Proof.
  intros Hbefore Hx. induction before as [|y before IH]; simpl.
  - rewrite Hx. reflexivity.
  - rewrite (Hbefore y) by (left; reflexivity).
    apply IH. intros z Hz. apply Hbefore. right. exact Hz.
Qed.

(** C9: without a section hint, the router resolves a question to the
    first section of the priority order projects, skills, experience,
    education, certifications whose keywords the lower-cased question
    contains, whatever later sections it also matches: what it does is
    [load_portfolio] followed by the dump of that section.  This holds
    for every [str.lower] and on every stdout. *)
Theorem keyword_routing_priority (prints : event -> bool) (e : env)
  (question : string) (s : state) (before after : list route_entry)
  (entry : route_entry) :
  priority_order = (before ++ entry :: after)%list ->
  mentions (str_lower question) entry = true ->
  (forall earlier, In earlier before ->
                   mentions (str_lower question) earlier = false) ->
  keyword_context json_loads str_lower prints e None question s
  = (portfolio_data <- load_portfolio json_loads prints e ;;
     dumps_section portfolio_data (key entry)) s.
Proof.
  intros Horder Hentry Hbefore.
  rewrite keyword_context_route, Horder.
  rewrite (find_first _ before after entry); [reflexivity| |exact Hentry].
  intros y Hy. unfold selects. simpl. apply Hbefore, Hy.
Qed.

(** What the router does with the section hint EDUCATION: it returns the
    first of projects, skills and experience whose keywords the question
    contains, and the education section when it contains none of them. *)
Lemma education_hint_after_earlier_keywords (prints : event -> bool)
  (e : env) (question : string) (s : state) :
  keyword_context json_loads str_lower prints e (Some "EDUCATION") question s
  = (portfolio_data <- load_portfolio json_loads prints e ;;
     dumps_section portfolio_data
       (match find (mentions (str_lower question))
                [projects_entry; skills_entry; experience_entry] with
        | Some earlier => key earlier
        | None => "education"
        end)) s.
Proof.
  rewrite keyword_context_route. unfold bind.
  destruct (load_portfolio json_loads prints e s) as [[portfolio_data|ex] s'];
    [|reflexivity].
  unfold priority_order, find, selects; simpl.
  repeat match goal with
         | |- context [if ?b then _ else _] => destruct b; try reflexivity
         end.
Qed.

(** C2: the section hint EDUCATION is not honoured when the question
    contains a keyword of projects, skills or experience: the router then
    returns the first of those sections, which is not the education
    section, although the hint is the caller's filter. *)
Theorem education_hint_loses_to_earlier_keyword (prints : event -> bool)
  (e : env) (question : string) (s : state) (earlier : route_entry) :
  find (mentions (str_lower question))
    [projects_entry; skills_entry; experience_entry] = Some earlier ->
  keyword_context json_loads str_lower prints e (Some "EDUCATION") question s
  = (portfolio_data <- load_portfolio json_loads prints e ;;
     dumps_section portfolio_data (key earlier)) s
  /\ key earlier <> "education".
Proof.
  intros Hfind. split.
  - rewrite education_hint_after_earlier_keywords, Hfind. reflexivity.
  - apply find_some in Hfind. destruct Hfind as [Hin _].
    simpl in Hin.
    destruct Hin as [<-|[<-|[<-|[]]]]; discriminate.
Qed.

Lemma select_chunks_slots (all_chunks before : list (string * string))
  (last_id last_text : string) (indices : list Z) :
  all_chunks = (before ++ [(last_id, last_text)])%list ->
  Forall (fun idx => -1 <= idx) indices ->
  forall selected_chunks,
    select_chunks all_chunks indices selected_chunks
    = Ok (selected_chunks
          ++ flat_map (slot_texts all_chunks last_text) indices)%list.
Proof.
  intros Hall Hrow.
  assert (Hlen : Z.of_nat (length all_chunks)
                 = Z.of_nat (length before) + 1).
  { rewrite Hall, length_app; simpl. lia. }
  induction Hrow as [|idx rest Hidx _ IH]; intros selected_chunks; simpl.
  - rewrite app_nil_r. reflexivity.
  - unfold slot_texts at 1, Py.getitem.
    destruct (idx =? -1) eqn:Hpad.
    + apply Z.eqb_eq in Hpad. subst idx.
      replace (-1 <? Z.of_nat (length all_chunks)) with true
        by (symmetry; apply Z.ltb_lt; lia).
      replace (0 <=? -1) with false by reflexivity.
      replace (0 <=? -1 + Z.of_nat (length all_chunks)) with true
        by (symmetry; apply Z.leb_le; lia).
      replace (Z.to_nat (-1 + Z.of_nat (length all_chunks)))
        with (length before) by lia.
      rewrite Hall at 1.
      rewrite nth_error_app2, Nat.sub_diag by lia. simpl.
      rewrite IH, <- app_assoc. reflexivity.
    + apply Z.eqb_neq in Hpad.
      replace (0 <=? idx) with true by (symmetry; apply Z.leb_le; lia).
      destruct (idx <? Z.of_nat (length all_chunks)) eqn:Hin.
      * apply Z.ltb_lt in Hin.
        destruct (nth_error all_chunks (Z.to_nat idx)) as [[cid ctext]|]
          eqn:Hnth.
        -- rewrite IH, <- app_assoc. reflexivity.
        -- apply nth_error_None in Hnth. lia.
      * apply Z.ltb_ge in Hin.
        replace (nth_error all_chunks (Z.to_nat idx)) with
          (@None (string * string))
          by (symmetry; apply nth_error_None; lia).
        simpl. apply IH.
Qed.

(** C10: the guard [idx < len(self.chunks)] lets the padding index -1
    through, so each -1 in the row of indices appends the text of the
    last chunk of the metadata list to the returned context instead of
    being skipped. *)
Theorem search_padding_appends_last_chunk (self : DenseRetriever)
  (question : string) (top_k : Z) (indices : list Z)
  (before : list (string * string)) (last_id last_text : string) :
  index_search self question top_k = Some indices ->
  chunks self = (before ++ [(last_id, last_text)])%list ->
  Forall (fun idx => -1 <= idx) indices ->
  (-1 <? Z.of_nat (length (chunks self))) = true
  /\ search self question top_k
     = Ok (Py.join (newline ++ newline)
             (flat_map (slot_texts (chunks self) last_text) indices))
  /\ slot_texts (chunks self) last_text (-1) = [last_text]
  /\ (In (-1) indices ->
      In last_text (flat_map (slot_texts (chunks self) last_text) indices)).
Proof.
  intros Hrow Hchunks Hvalid. split; [|split; [|split]].
  - apply Z.ltb_lt. lia.
  - unfold search. rewrite Hrow.
    rewrite (select_chunks_slots _ before last_id last_text _ Hchunks Hvalid).
    reflexivity.
  - reflexivity.
  - intros Hpad. apply in_flat_map. exists (-1). split; [exact Hpad|].
    left. reflexivity.
Qed.

Lemma DenseRetriever_init_cases (e : env) (s : state) :
  (exists r, construction e = Some r
             /\ DenseRetriever_init utf8 e s = (Ok r, logged [IndexLoaded] s))
  \/ (exists ex, construction e = None
                 /\ DenseRetriever_init utf8 e s
                    = (Raise ex, logged [IndexNotLoaded] s)).
Proof.
  unfold DenseRetriever_init, construction. unfold_py.
  destruct (sentence_transformer e);
    [|right; eexists; split; reflexivity].
  destruct (INDEX_PATH e) as [[found|]|];
    try (right; eexists; split; reflexivity).
  destruct (META_PATH e) as [[meta|]|];
    try (right; eexists; split; reflexivity).
  left; eexists; split; reflexivity.
Qed.

(** [dense_context] case by case: an artifact is missing; a retriever is
    there; none is there and the construction succeeds or fails. *)
Lemma dense_context_cases (e : env) (question : string) (top_k : Z)
  (s : state) :
  dense_context utf8 e question top_k s =
  if (negb (exists_ (INDEX_PATH e)) || negb (exists_ (META_PATH e)))%bool
  then (Ok "", s)
  else match _dense_retriever s with
       | Some r => searched r question top_k s
       | None =>
           match construction e with
           | Some r =>
               searched r question top_k
                 (with_retriever r (logged [IndexLoaded; Construct] s))
           | None => (Ok "", logged [IndexNotLoaded; Construct] s)
           end
       end.
Proof.
  unfold dense_context.
  destruct (negb (exists_ (INDEX_PATH e))
          || negb (exists_ (META_PATH e)))%bool;
    [reflexivity|].
  unfold bind at 1. unfold get_state at 1.
  destruct (_dense_retriever s) as [r|] eqn:Hr.
  - unfold_py. rewrite Hr. unfold searched.
    destruct (search r question top_k); reflexivity.
  - unfold bind at 1. unfold try_except at 1. unfold bind at 1.
    unfold emit at 1. unfold bind at 1.
    match goal with
    | |- context [DenseRetriever_init utf8 e ?s0] =>
        destruct (DenseRetriever_init_cases e s0)
          as [(r & Hc & Hinit) | (ex & Hc & Hinit)];
        rewrite Hinit, Hc
    end.
    + unfold_py. simpl. unfold searched.
      destruct (search r question top_k); reflexivity.
    + reflexivity.
Qed.

(** [dense_context] on any stdout.  A construction whose message cannot
    be written fails like any other, and the retriever is not stored;
    the print of the handler around [search] is guarded by nothing. *)
Lemma dense_context_print_cases (prints : event -> bool) (e : env)
  (question : string) (top_k : Z) (s : state) :
  dense_context prints e question top_k s =
  if (negb (exists_ (INDEX_PATH e)) || negb (exists_ (META_PATH e)))%bool
  then (Ok "", s)
  else match _dense_retriever s with
       | Some r => searched_on prints r question top_k s
       | None =>
           match construction e with
           | Some r =>
               if prints IndexLoaded
               then searched_on prints r question top_k
                      (with_retriever r (logged [IndexLoaded; Construct] s))
               else (Ok "", construction_failed prints s)
           | None => (Ok "", construction_failed prints s)
           end
       end.
Proof.
  unfold dense_context.
  destruct (negb (exists_ (INDEX_PATH e))
          || negb (exists_ (META_PATH e)))%bool;
    [reflexivity|].
  unfold bind at 1. unfold get_state at 1.
  destruct (_dense_retriever s) as [r|] eqn:Hr.
  - unfold_py. rewrite Hr. unfold searched_on.
    destruct (search r question top_k); [reflexivity|].
    destruct (prints VectorSearchError); reflexivity.
  - unfold DenseRetriever_init, construction, construction_failed,
      searched_on.
    unfold_py.
    destruct (sentence_transformer e);
      [|destruct (prints IndexNotLoaded); reflexivity].
    destruct (INDEX_PATH e) as [[found|]|];
      try (destruct (prints IndexNotLoaded); reflexivity).
    destruct (META_PATH e) as [[meta|]|];
      try (destruct (prints IndexNotLoaded); reflexivity).
    destruct (prints IndexLoaded);
      [|destruct (prints IndexNotLoaded); reflexivity].
    simpl.
    destruct (search _ question top_k); [reflexivity|].
    destruct (prints VectorSearchError); reflexivity.
Qed.

Ltac count_events :=
  unfold built_once, same_dense, constructions, attempts, searches,
    searched, with_retriever, logged, reloaded, count in *;
  simpl in *.

Lemma same_dense_trans (s1 s2 s3 : state) :
  same_dense s1 s2 -> same_dense s2 s3 -> same_dense s1 s3.
Proof.
  unfold same_dense. intros (A1 & A2 & A3 & A4) (B1 & B2 & B3 & B4).
  repeat split; congruence.
Qed.

Lemma built_once_same_dense (s s' : state) :
  same_dense s s' -> built_once s -> built_once s'.
Proof.
  unfold same_dense, built_once. intros (A1 & A2 & A3 & A4).
  rewrite A1, A2, A4. auto.
Qed.

Lemma load_portfolio_same_dense (e : env) (s : state) :
  same_dense s (snd (load_portfolio json_loads utf8 e s)).
Proof.
  rewrite load_portfolio_cases.
  destruct (PORTFOLIO_PATH e) as [f|]; [|repeat split].
  destruct (stale s (st_mtime f)); [|repeat split].
  destruct (text f) as [t|]; [|repeat split].
  destruct (json_loads t); repeat split.
Qed.

Lemma keyword_context_state (e : env) (section : option string)
  (question : string) (s : state) :
  snd (keyword_context json_loads str_lower utf8 e section question s)
  = snd (load_portfolio json_loads utf8 e s).
Proof.
  rewrite keyword_context_route. unfold bind.
  destruct (load_portfolio json_loads utf8 e s) as [[portfolio_data|ex] s'];
    [|reflexivity].
  destruct (find _ _) as [entry|]; simpl; [|reflexivity].
  unfold dumps_section. destruct portfolio_data; reflexivity.
Qed.

Lemma reload_portfolio_same_dense (e : env) (s : state) :
  same_dense s (snd (reload_portfolio json_loads utf8 e s)).
Proof.
  unfold reload_portfolio, bind, set_last_modified.
  eapply same_dense_trans; [|apply load_portfolio_same_dense].
  repeat split.
Qed.

Lemma dense_context_built_once (e : env) (question : string) (top_k : Z)
  (s : state) :
  built_once s -> built_once (snd (dense_context utf8 e question top_k s)).
Proof.
  rewrite dense_context_cases.
  destruct (negb (exists_ (INDEX_PATH e))
          || negb (exists_ (META_PATH e)))%bool;
    [auto|].
  destruct (_dense_retriever s) as [r|] eqn:Hr.
  - unfold searched.
    destruct (search r question top_k); count_events; rewrite Hr; auto.
  - destruct (construction e) as [r|].
    + unfold searched.
      destruct (search r question top_k); count_events; rewrite Hr;
        intros [H0 _]; rewrite H0; reflexivity.
    + count_events. rewrite Hr. auto.
Qed.

(** [select_context] on any stdout: its two prints are guarded by
    nothing. *)
Lemma select_context_print_cases (prints : event -> bool) (e : env)
  (section : option string) (question : string) (s : state) :
  select_context json_loads str_lower prints e section question s =
  if rag_enabled str_lower e then
    match dense_context prints e question 5 s with
    | (Ok vector_context, s1) =>
        if truthy vector_context
        then if prints UsingVector
             then (Ok vector_context, logged [UsingVector] s1)
             else (Raise UnicodeEncodeError, s1)
        else if prints UsingKeyword
             then keyword_context json_loads str_lower prints e section
                    question (logged [UsingKeyword] s1)
             else (Raise UnicodeEncodeError, s1)
    | (Raise ex, s1) => (Raise ex, s1)
    end
  else if prints UsingKeyword
       then keyword_context json_loads str_lower prints e section question
              (logged [UsingKeyword] s)
       else (Raise UnicodeEncodeError, s).
Proof.
  unfold select_context. unfold bind at 1.
  destruct (rag_enabled str_lower e).
  - unfold bind at 1.
    destruct (dense_context prints e question 5 s)
      as [[vector_context|ex] s1]; [|reflexivity].
    destruct (truthy vector_context); unfold_py.
    + destruct (prints UsingVector); reflexivity.
    + destruct (prints UsingKeyword); reflexivity.
  - unfold_py. destruct (prints UsingKeyword); reflexivity.
Qed.

Lemma select_context_cases (e : env) (section : option string)
  (question : string) (s : state) :
  select_context json_loads str_lower utf8 e section question s =
  if rag_enabled str_lower e then
    match dense_context utf8 e question 5 s with
    | (Ok vector_context, s1) =>
        if truthy vector_context
        then (Ok vector_context, logged [UsingVector] s1)
        else keyword_context json_loads str_lower utf8 e section question
               (logged [UsingKeyword] s1)
    | (Raise ex, s1) => (Raise ex, s1)
    end
  else keyword_context json_loads str_lower utf8 e section question
         (logged [UsingKeyword] s).
Proof.
  unfold select_context. unfold bind at 1.
  destruct (rag_enabled str_lower e); [|reflexivity].
  unfold bind at 1.
  destruct (dense_context utf8 e question 5 s) as [[vector_context|ex] s1];
    [|reflexivity].
  destruct (truthy vector_context); reflexivity.
Qed.

Lemma built_once_logged (ev : event) (s : state) :
  ev <> IndexLoaded -> ev <> Search ->
  built_once s -> built_once (logged [ev] s).
Proof.
  intros H1 H2. count_events.
  destruct ev; try contradiction; simpl; auto.
Qed.

Lemma select_context_built_once (e : env) (section : option string)
  (question : string) (s : state) :
  built_once s ->
  built_once
    (snd (select_context json_loads str_lower utf8 e section question s)).
Proof.
  intros Hs. rewrite select_context_cases.
  destruct (rag_enabled str_lower e).
  - pose proof (dense_context_built_once e question 5 s Hs) as Hd.
    destruct (dense_context utf8 e question 5 s) as [[vector_context|ex] s1];
      simpl in Hd; [|exact Hd].
    destruct (truthy vector_context).
    + simpl. apply built_once_logged; [discriminate|discriminate|exact Hd].
    + rewrite keyword_context_state.
      eapply built_once_same_dense; [apply load_portfolio_same_dense|].
      apply built_once_logged; [discriminate|discriminate|exact Hd].
  - rewrite keyword_context_state.
    eapply built_once_same_dense; [apply load_portfolio_same_dense|].
    apply built_once_logged; [discriminate|discriminate|exact Hs].
Qed.

(** The invariant holds in every state a process can be in. *)
Lemma reachable_built_once (s : state) :
  reachable json_loads str_lower utf8 s -> built_once s.
Proof.
  induction 1 as [|e c s _ IH].
  - split; reflexivity.
  - destruct c; simpl.
    + eapply built_once_same_dense; [apply load_portfolio_same_dense|exact IH].
    + eapply built_once_same_dense;
        [apply reload_portfolio_same_dense|exact IH].
    + rewrite keyword_context_state.
      eapply built_once_same_dense; [apply load_portfolio_same_dense|exact IH].
    + apply dense_context_built_once, IH.
    + apply select_context_built_once, IH.
Qed.

(** C3, amended: in every state a process reaches, at most one
    construction of the Dense Retriever has succeeded and [search] was
    never called while the global was [None]; a retriever that is there
    is reused without another attempt.  A failed construction is not
    remembered: the call returns the empty context without calling
    [search], the global stays [None], and the attempt is made again by
    every later call that finds both artifact files.  (On a stdout that
    writes every message.) *)
Theorem dense_retriever_built_once (s : state) :
  reachable json_loads str_lower utf8 s ->
  (constructions s <= 1)%nat
  /\ (_dense_retriever s = None -> searches s = 0%nat)
  /\ (forall e question top_k r,
        _dense_retriever s = Some r ->
        _dense_retriever (snd (dense_context utf8 e question top_k s)) = Some r
        /\ attempts (snd (dense_context utf8 e question top_k s)) = attempts s)
  /\ (forall e question top_k,
        _dense_retriever s = None ->
        exists_ (INDEX_PATH e) = true ->
        exists_ (META_PATH e) = true ->
        construction e = None ->
        dense_context utf8 e question top_k s
        = (Ok "", logged [IndexNotLoaded; Construct] s)
        /\ _dense_retriever (snd (dense_context utf8 e question top_k s)) = None
        /\ attempts (snd (dense_context utf8 e question top_k s))
           = S (attempts s)
        /\ searches (snd (dense_context utf8 e question top_k s)) = searches s).
Proof.
  intros Hreach. pose proof (reachable_built_once s Hreach) as Hinv.
  unfold built_once in Hinv.
  split; [|split; [|split]].
  - destruct (_dense_retriever s); [lia|]. destruct Hinv; lia.
  - intros Hnone. rewrite Hnone in Hinv. apply Hinv.
  - intros e question top_k r Hr. rewrite dense_context_cases.
    destruct (negb (exists_ (INDEX_PATH e))
          || negb (exists_ (META_PATH e)))%bool;
      [split; [exact Hr|reflexivity]|].
    rewrite Hr. unfold searched.
    destruct (search r question top_k); split; try exact Hr; reflexivity.
  - intros e question top_k Hnone Hindex Hmeta Hfail.
    rewrite dense_context_cases, Hindex, Hmeta, Hnone, Hfail. simpl.
    repeat split. exact Hnone.
Qed.



(** What [load_portfolio] returns depends on the state through the
    cache only. *)
Lemma load_portfolio_cache_only (prints : event -> bool) (e : env)
  (s1 s2 : state) :
  _portfolio_cache s1 = _portfolio_cache s2 ->
  fst (load_portfolio json_loads prints e s1)
  = fst (load_portfolio json_loads prints e s2).
Proof.
  intros H. rewrite !load_portfolio_print_cases. unfold stale, load_failed.
  rewrite H.
  destruct (PORTFOLIO_PATH e) as [f|];
    [|destruct (prints PortfolioError); reflexivity].
  destruct (is_None (data (_portfolio_cache s2))
            || (st_mtime f >? last_modified (_portfolio_cache s2)))%bool.
  - destruct (text f) as [t|];
      [|destruct (prints PortfolioError); reflexivity].
    destruct (json_loads t);
      [|destruct (prints PortfolioError); reflexivity].
    destruct (prints PortfolioReloaded); [reflexivity|].
    destruct (prints PortfolioError); reflexivity.
  - reflexivity.
Qed.

Lemma keyword_context_cache_only (prints : event -> bool) (e : env)
  (section : option string) (question : string) (s1 s2 : state) :
  _portfolio_cache s1 = _portfolio_cache s2 ->
  fst (keyword_context json_loads str_lower prints e section question s1)
  = fst (keyword_context json_loads str_lower prints e section question s2).
Proof.
  intros H. rewrite !keyword_context_route. unfold bind.
  pose proof (load_portfolio_cache_only prints e s1 s2 H) as Hload.
  destruct (load_portfolio json_loads prints e s1) as [r1 t1].
  destruct (load_portfolio json_loads prints e s2) as [r2 t2].
  simpl in Hload. subst r2.
  destruct r1 as [portfolio_data|ex]; [|reflexivity].
  destruct (find _ _) as [entry|]; simpl; [|reflexivity].
  unfold dumps_section. destruct portfolio_data; reflexivity.
Qed.

Lemma dense_context_cache (prints : event -> bool) (e : env)
  (question : string) (top_k : Z) (s : state) :
  _portfolio_cache (snd (dense_context prints e question top_k s))
  = _portfolio_cache s.
Proof.
  rewrite dense_context_print_cases.
  destruct (negb (exists_ (INDEX_PATH e))
          || negb (exists_ (META_PATH e)))%bool;
    [reflexivity|].
  unfold searched_on, construction_failed.
  destruct (_dense_retriever s) as [r|].
  - destruct (search r question top_k); [reflexivity|].
    destruct (prints VectorSearchError); reflexivity.
  - destruct (construction e) as [r|]; [|reflexivity].
    destruct (prints IndexLoaded); [|reflexivity].
    destruct (search r question top_k); [reflexivity|].
    destruct (prints VectorSearchError); reflexivity.
Qed.



Lemma has_key_item_at (k : string) (d : list (string * json)) :
  has_key k d = true -> item_at k d = Ok (get k JNull d).
Proof.
  unfold item_at, get. induction d as [|[k' v] d IH]; simpl.
  - discriminate.
  - destruct (String.eqb k' k); simpl; [reflexivity|exact IH].
Qed.

Lemma visit_item_appends (links : list link) (item : json) :
  visit_item py_str links item
  = Ok (links ++ record_links py_str item)%list.
Proof.
  destruct item; simpl; try (rewrite app_nil_r; reflexivity).
  unfold visit_repo, visit_demo, visit_url, append, and_then.
  destruct (has_key "repo" members) eqn:Hrepo;
    [rewrite (has_key_item_at _ _ Hrepo)|];
    (destruct (has_key "demo" members) eqn:Hdemo;
     [rewrite (has_key_item_at _ _ Hdemo)|]);
    (destruct (has_key "url" members) eqn:Hurl;
     [destruct (has_key "name" members) eqn:Hname|]); simpl;
    try rewrite (has_key_item_at _ _ Hurl);
    try rewrite (has_key_item_at _ _ Hname);
    rewrite <- ?app_assoc, ?app_nil_r; reflexivity.
Qed.

Lemma visit_items_appends (items : list json) :
  forall links,
    visit_items py_str links items
    = Ok (links ++ flat_map (record_links py_str) items)%list.
Proof.
  induction items as [|item rest IH]; intros links; simpl.
  - rewrite app_nil_r. reflexivity.
  - rewrite visit_item_appends. simpl. rewrite IH, <- app_assoc.
    reflexivity.
Qed.

(** C1, amended: for a context that parses as a sequence of records,
    [extract_links] returns the first four, at most, of the links the
    records yield, in the order of the records and with nothing removed:
    links are not deduplicated by url. *)
Theorem extract_links_first_four (context : string) (items : list json) :
  json_loads context = Some (JArray items) ->
  extract_links json_loads py_str context
  = firstn 4 (flat_map (record_links py_str) items)
  /\ (length (extract_links json_loads py_str context) <= 4)%nat.
Proof.
  intros Hparse.
  assert (H : extract_links json_loads py_str context
              = firstn 4 (flat_map (record_links py_str) items)).
  { unfold extract_links. rewrite Hparse. simpl.
    rewrite visit_items_appends. reflexivity. }
  split; [exact H|]. rewrite H. apply firstn_le_length.
Qed.

(** C8: for a context that does not parse, or that parses to a value
    that is no sequence, [extract_links] returns the empty sequence. *)
Theorem extract_links_non_sequence (context : string) :
  json_loads context = None
  \/ (exists v, json_loads context = Some v /\ is_list v = false) ->
  extract_links json_loads py_str context = [].
Proof.
  unfold extract_links. intros [Hfail | (v & Hparse & Hshape)].
  - rewrite Hfail. reflexivity.
  - rewrite Hparse. destruct v; try discriminate; reflexivity.
Qed.

End Properties.

Lemma load_portfolio_raises_on_failure_witness :
  load_failure sample_loads missing_env initial
  /\ load_failure sample_loads broken_env initial
  /\ fst (load_portfolio sample_loads ascii_stdout missing_env initial)
     = Raise UnicodeEncodeError
  /\ fst (load_portfolio sample_loads ascii_stdout broken_env initial)
     = Raise UnicodeEncodeError.
Proof.
  assert (H1 : load_failure sample_loads missing_env initial)
    by (apply stat_fails; reflexivity).
  assert (H2 : load_failure sample_loads broken_env initial)
    by (eapply parse_fails; reflexivity).
  split; [exact H1 | split; [exact H2 | split]].
  - exact (load_portfolio_raises_on_failure sample_loads ascii_stdout
             missing_env initial H1 eq_refl).
  - exact (load_portfolio_raises_on_failure sample_loads ascii_stdout
             broken_env initial H2 eq_refl).
Defined.

Lemma load_twice_reads_once_witness :
  fst (load_portfolio sample_loads utf8 sample_env
         (snd (load_portfolio sample_loads utf8 sample_env initial)))
  = fst (load_portfolio sample_loads utf8 sample_env initial)
  /\ disk_reads (snd (load_portfolio sample_loads utf8 sample_env
                        (snd (load_portfolio sample_loads utf8 sample_env
                                initial))))
     = 1%nat.
Proof.
  assert (Hok : ~ load_failure sample_loads sample_env initial).
  { intros [H | f H _ Ht | f t H _ Ht Hj].
    - discriminate H.
    - injection H as <-. discriminate Ht.
    - injection H as <-. injection Ht as <-. discriminate Hj. }
  assert (Hdoc : fst (load_portfolio sample_loads utf8 sample_env initial)
                 <> Ok JNull) by discriminate.
  destruct (load_twice_reads_once sample_loads sample_env sample_env initial
              _ _ eq_refl eq_refl eq_refl Hok Hdoc)
    as (Hsame & Hreads & _ & Hone).
  split; [exact Hsame|].
  rewrite Hreads. exact (Hone eq_refl).
Defined.

(** C5 as stated fails when the read does not end with a document in the
    cache: on a file whose text is no JSON both calls return the empty
    document and each of them reads the file. *)
Lemma load_twice_reads_twice_when_parse_fails :
  fst (load_portfolio sample_loads utf8 broken_env initial) = Ok (JObject [])
  /\ fst (load_portfolio sample_loads utf8 broken_env
            (snd (load_portfolio sample_loads utf8 broken_env initial)))
     = Ok (JObject [])
  /\ disk_reads (snd (load_portfolio sample_loads utf8 broken_env initial))
     = 1%nat
  /\ disk_reads (snd (load_portfolio sample_loads utf8 broken_env
                        (snd (load_portfolio sample_loads utf8 broken_env
                                initial))))
     = 2%nat.
Proof. repeat split. Qed.

Lemma reload_portfolio_rereads_witness :
  disk_reads (snd (reload_portfolio sample_loads utf8 sample_env
                     (snd (load_portfolio sample_loads utf8 sample_env
                             initial))))
  = 2%nat
  /\ fst (reload_portfolio sample_loads utf8 sample_env
            (snd (load_portfolio sample_loads utf8 sample_env initial)))
     = Ok sample_portfolio.
Proof.
  destruct (reload_portfolio_rereads sample_loads sample_env
              (snd (load_portfolio sample_loads utf8 sample_env initial))
              _ eq_refl eq_refl) as [Hreads Hdoc].
  split; [exact Hreads | exact (Hdoc _ _ eq_refl eq_refl)].
Defined.

(** C6 fails on a file stamped with the epoch: the cache holds the document
    read at modification time 0, the file now holds another document with
    the same stamp, and [reload_portfolio] returns the cached document
    without reading the file, since 0 is not greater than the sentinel 0.
    (On a stdout that writes every message.) *)
Lemma reload_portfolio_skips_epoch_file :
  fst (load_portfolio sample_loads utf8 (epoch_env (dumps sample_portfolio))
         initial)
  = Ok sample_portfolio
  /\ sample_loads (dumps updated_portfolio) = Some updated_portfolio
  /\ fst (reload_portfolio sample_loads utf8
            (epoch_env (dumps updated_portfolio))
            (snd (load_portfolio sample_loads utf8
                    (epoch_env (dumps sample_portfolio)) initial)))
     = Ok sample_portfolio
  /\ disk_reads (snd (reload_portfolio sample_loads utf8
                        (epoch_env (dumps updated_portfolio))
                        (snd (load_portfolio sample_loads utf8
                                (epoch_env (dumps sample_portfolio)) initial))))
     = disk_reads (snd (load_portfolio sample_loads utf8
                          (epoch_env (dumps sample_portfolio)) initial))
  /\ sample_portfolio <> updated_portfolio.
Proof. repeat split. discriminate. Qed.

Lemma keyword_routing_priority_witness :
  keyword_context sample_loads Py.lower utf8 sample_env None
    "what skills and projects have you built" initial
  = (portfolio_data <- load_portfolio sample_loads utf8 sample_env ;;
     dumps_section portfolio_data "projects") initial
  /\ mentions (Py.lower "what skills and projects have you built")
       skills_entry = true.
Proof.
  split; [|reflexivity].
  apply (keyword_routing_priority sample_loads Py.lower utf8 sample_env
           "what skills and projects have you built" initial
           [] [skills_entry; experience_entry; education_entry;
               certifications_entry] projects_entry).
  - reflexivity.
  - reflexivity.
  - intros earlier [].
Defined.

Lemma education_hint_loses_to_earlier_keyword_witness :
  fst (keyword_context sample_loads Py.lower utf8 sample_env (Some "EDUCATION")
         "Which projects did you finish at university?" initial)
  = Ok (dumps sample_projects)
  /\ dumps sample_projects <> dumps sample_education.
Proof.
  split.
  - rewrite (proj1 (education_hint_loses_to_earlier_keyword sample_loads
                      Py.lower utf8 sample_env
                      "Which projects did you finish at university?" initial
                      projects_entry eq_refl)).
    reflexivity.
  - intros H. vm_compute in H. discriminate H.
Defined.

Lemma search_padding_appends_last_chunk_witness :
  search small_retriever "what do you know" 5
  = Ok (Py.join (newline ++ newline)
          ["Skill: Rocq"; "About: An engineer.";
           "Skill: Rocq"; "Skill: Rocq"; "Skill: Rocq"]).
Proof.
  refine (proj1 (proj2 (search_padding_appends_last_chunk small_retriever
                          "what do you know" 5 [1; 0; -1; -1; -1]
                          [("about", "About: An engineer.")]
                          "skills:0" "Skill: Rocq" eq_refl eq_refl _))).
  repeat constructor; discriminate.
Defined.

(** C3 as stated fails when a construction fails: nothing marks the
    retriever unavailable, the next call attempts the construction again,
    and once the environment is repaired a later call builds the retriever
    and searches it. *)
Lemma construction_retried_after_failure :
  construction no_library_env = None
  /\ fst (dense_context utf8 no_library_env "first" 5 initial) = Ok ""
  /\ attempts (snd (dense_context utf8 no_library_env "first" 5 initial))
     = 1%nat
  /\ attempts (snd (dense_context utf8 no_library_env "second" 5
                      (snd (dense_context utf8 no_library_env "first" 5
                              initial))))
     = 2%nat
  /\ searches (snd (dense_context utf8 dense_env "third" 5
                      (snd (dense_context utf8 no_library_env "first" 5
                              initial))))
     = 1%nat.
Proof. repeat split. Qed.

Lemma dense_retriever_built_once_witness :
  (constructions (after_call sample_loads Py.lower utf8 dense_env
                    (DenseContext "first" 5)
                    (after_call sample_loads Py.lower utf8 no_library_env
                       (DenseContext "first" 5) initial)) <= 1)%nat.
Proof.
  refine (proj1 (dense_retriever_built_once sample_loads Py.lower _ _)).
  apply reachable_call, reachable_call, reachable_initial.
Defined.


Lemma extract_links_first_four_witness :
  extract_links sample_loads sample_str (dumps sample_projects)
  = [{| label := JString "Solver - GitHub";
        url := JString "https://example.org/solver" |};
     {| label := JString "Solver - Live Demo";
        url := JString "https://example.org/solver/demo" |}].
Proof.
  exact (proj1 (extract_links_first_four sample_loads sample_str
                  (dumps sample_projects) _ eq_refl)).
Defined.

(** C1 as stated fails on two records with the same url: both links are
    returned. *)
Lemma extract_links_keeps_duplicate_urls :
  sample_loads (dumps sample_certifications) = Some sample_certifications
  /\ map url (extract_links sample_loads sample_str
                (dumps sample_certifications))
     = [JString "https://example.org/cert"; JString "https://example.org/cert"].
Proof. split; reflexivity. Qed.

Lemma extract_links_non_sequence_witness :
  extract_links sample_loads sample_str (dumps sample_portfolio) = []
  /\ extract_links sample_loads sample_str "Skill: Rocq" = [].
Proof.
  split.
  - apply extract_links_non_sequence. right.
    exists sample_portfolio. split; reflexivity.
  - apply extract_links_non_sequence. left. reflexivity.
Defined.

(** ** Further properties of the store *)

Section StoreProperties.

Variable json_loads : string -> option json.
Variable py_str : json -> string.
Variable str_lower : string -> string.

(** What [keyword_context] returns, from the document [load_portfolio]
    returns and the entry the table search ends on. *)
Lemma keyword_context_result (prints : event -> bool) (e : env)
  (section : option string) (question : string) (s : state) (doc : json) :
  fst (load_portfolio json_loads prints e s) = Ok doc ->
  fst (keyword_context json_loads str_lower prints e section question s)
  = match find (selects section (str_lower question)) priority_order with
    | Some entry =>
        match doc with
        | JObject d => Ok (dumps (get (key entry) (JArray []) d))
        | _ => Raise AttributeError
        end
    | None => Ok (dumps doc)
    end.
Proof.
  intros Hload. rewrite keyword_context_route. unfold bind.
  destruct (load_portfolio json_loads prints e s) as [r s']. simpl in Hload.
  subst r. destruct (find _ _) as [entry|]; simpl; [|reflexivity].
  unfold dumps_section. destruct doc; reflexivity.
Qed.


Lemma priority_order_split (before after : list route_entry)
  (entry : route_entry) :
  priority_order = (before ++ entry :: after)%list ->
  forall earlier, In earlier before ->
                  String.eqb (hint entry) (hint earlier) = false.
Proof.
  unfold priority_order. intros Horder earlier Hin.
  destruct before as [|b1 [|b2 [|b3 [|b4 [|b5 before]]]]];
    simpl in Horder; injection Horder as; subst; simpl in Hin;
    repeat (destruct Hin as [<-|Hin]; [reflexivity|]); try contradiction.
  destruct before; discriminate.
Qed.

(** X2: a section hint is honoured whenever the question contains no
    keyword of a section that comes earlier in the priority order; the
    hint PROJECTS is therefore always honoured.  This holds for every
    [str.lower] and on every stdout. *)
Theorem hint_honoured_without_earlier_keywords (prints : event -> bool)
  (e : env) (question : string) (s : state)
  (before after : list route_entry) (entry : route_entry) :
  priority_order = (before ++ entry :: after)%list ->
  (forall earlier, In earlier before ->
                   mentions (str_lower question) earlier = false) ->
  keyword_context json_loads str_lower prints e (Some (hint entry)) question s
  = (portfolio_data <- load_portfolio json_loads prints e ;;
     dumps_section portfolio_data (key entry)) s.
Proof.
  intros Horder Hbefore.
  rewrite keyword_context_route, Horder.
  rewrite (find_first _ before after entry); [reflexivity| |].
  - intros earlier Hin. unfold selects. simpl.
    rewrite (priority_order_split before after entry Horder earlier Hin).
    apply Hbefore, Hin.
  - unfold selects. simpl. rewrite String.eqb_refl. reflexivity.
Qed.


(** X5: after a load that read the document [v1] from a file modified at
    [t1], an edit of the file is seen by the next load exactly when the
    modification time has advanced: it returns the new document [v2] when
    the new time is greater than [t1], and the cached [v1] otherwise.
    (On a stdout that writes every message.) *)
Theorem edit_seen_when_mtime_advances (e1 e2 : env) (s : state)
  (f1 f2 : file) (t1 t2 : string) (v1 v2 : json) :
  PORTFOLIO_PATH e1 = Some f1 ->
  stale s (st_mtime f1) = true ->
  text f1 = Some t1 -> json_loads t1 = Some v1 -> v1 <> JNull ->
  PORTFOLIO_PATH e2 = Some f2 ->
  text f2 = Some t2 -> json_loads t2 = Some v2 ->
  fst (load_portfolio json_loads utf8 e2
         (snd (load_portfolio json_loads utf8 e1 s)))
  = Ok (if st_mtime f2 >? st_mtime f1 then v2 else v1).
Proof.
  intros Hp1 Hs1 Ht1 Hj1 Hv1 Hp2 Ht2 Hj2.
  rewrite (load_portfolio_cases json_loads e1), Hp1, Hs1, Ht1, Hj1. simpl.
  rewrite load_portfolio_cases, Hp2, Ht2, Hj2.
  unfold stale, reloaded; simpl.
  destruct v1; try contradiction; simpl;
    destruct (st_mtime f2 >? st_mtime f1); reflexivity.
Qed.

Lemma load_times_succ (n : nat) (e : env) (s : state) :
  load_times json_loads utf8 (S n) e s
  = snd (load_portfolio json_loads utf8 e (load_times json_loads utf8 n e s)).
Proof.
  revert s. induction n as [|n IH]; intros s; [reflexivity|].
  change (load_times json_loads utf8 (S (S n)) e s)
    with (load_times json_loads utf8 (S n) e
            (snd (load_portfolio json_loads utf8 e s))).
  rewrite IH. reflexivity.
Qed.

(** X6: while the file is due for a reload and cannot be read or parsed,
    every call of [load_portfolio] opens it again and returns the empty
    document; the cache is left as it was, so a document loaded earlier is
    kept but not served.  (On a stdout that writes every message.) *)
Theorem broken_file_read_on_every_call (n : nat) (e : env) (s : state)
  (f : file) :
  PORTFOLIO_PATH e = Some f ->
  stale s (st_mtime f) = true ->
  text f = None \/ (exists t, text f = Some t /\ json_loads t = None) ->
  _portfolio_cache (load_times json_loads utf8 n e s) = _portfolio_cache s
  /\ disk_reads (load_times json_loads utf8 n e s) = (disk_reads s + n)%nat
  /\ fst (load_portfolio json_loads utf8 e (load_times json_loads utf8 n e s))
     = Ok (JObject []).
Proof.
  intros Hp Hs Hbroken.
  assert (Hstep : forall s0,
             _portfolio_cache s0 = _portfolio_cache s ->
             load_portfolio json_loads utf8 e s0
             = (Ok (JObject []), logged [PortfolioError; OpenPortfolio] s0)).
  { intros s0 Hc. rewrite load_portfolio_cases, Hp.
    replace (stale s0 (st_mtime f)) with true
      by (rewrite <- Hs; unfold stale; rewrite Hc; reflexivity).
    destruct Hbroken as [Ht | (t & Ht & Hj)]; rewrite Ht;
      [|rewrite Hj]; reflexivity. }
  assert (Hn : _portfolio_cache (load_times json_loads utf8 n e s)
               = _portfolio_cache s
               /\ disk_reads (load_times json_loads utf8 n e s)
                  = (disk_reads s + n)%nat).
  { induction n as [|n [IHc IHr]].
    - simpl. split; [reflexivity|lia].
    - rewrite load_times_succ, (Hstep _ IHc). simpl. split; [exact IHc|].
      unfold disk_reads, count in *. simpl. rewrite IHr. lia. }
  destruct Hn as [Hc Hr]. split; [exact Hc|split; [exact Hr|]].
  rewrite (Hstep _ Hc). reflexivity.
Qed.



Lemma select_chunks_index_error (all_chunks : list (string * string))
  (indices : list Z) :
  forall selected_chunks,
    (Forall (fun idx => - Z.of_nat (length all_chunks) <= idx) indices ->
     exists selected,
       select_chunks all_chunks indices selected_chunks = Ok selected)
    /\ (Exists (fun idx => idx < - Z.of_nat (length all_chunks)) indices ->
        select_chunks all_chunks indices selected_chunks = Raise IndexError).
Proof.
  induction indices as [|idx rest IH]; intros selected_chunks.
  - split; [intros _; eexists; reflexivity|intros H; inversion H].
  - assert (Hget : - Z.of_nat (length all_chunks) <= idx ->
                   idx < Z.of_nat (length all_chunks) ->
                   exists c, Py.getitem all_chunks idx = Some c).
    { intros Hlo Hhi. unfold Py.getitem.
      destruct (0 <=? idx) eqn:Hsign.
      - apply Z.leb_le in Hsign.
        destruct (nth_error all_chunks (Z.to_nat idx)) as [c|] eqn:Hnth;
          [exists c; reflexivity|].
        apply nth_error_None in Hnth. lia.
      - apply Z.leb_gt in Hsign.
        replace (0 <=? idx + Z.of_nat (length all_chunks)) with true
          by (symmetry; apply Z.leb_le; lia).
        destruct (nth_error all_chunks
                    (Z.to_nat (idx + Z.of_nat (length all_chunks))))
          as [c|] eqn:Hnth; [exists c; reflexivity|].
        apply nth_error_None in Hnth. lia. }
    simpl. destruct (idx <? Z.of_nat (length all_chunks)) eqn:Hguard.
    + apply Z.ltb_lt in Hguard. split.
      * intros Hall. inversion Hall as [|? ? Hidx Hrest]; subst.
        destruct (Hget Hidx Hguard) as [[cid ctext] Hc]. rewrite Hc.
        apply IH, Hrest.
      * intros Hbad. inversion Hbad as [? ? Hidx|? ? Hrest]; subst.
        -- unfold Py.getitem.
           replace (0 <=? idx) with false by (symmetry; apply Z.leb_gt; lia).
           replace (0 <=? idx + Z.of_nat (length all_chunks)) with false
             by (symmetry; apply Z.leb_gt; lia).
           reflexivity.
        -- destruct (Z_lt_le_dec idx (- Z.of_nat (length all_chunks)))
             as [Hlt|Hge].
           ++ unfold Py.getitem.
              replace (0 <=? idx) with false
                by (symmetry; apply Z.leb_gt; lia).
              replace (0 <=? idx + Z.of_nat (length all_chunks)) with false
                by (symmetry; apply Z.leb_gt; lia).
              reflexivity.
           ++ destruct (Hget Hge Hguard) as [[cid ctext] Hc]. rewrite Hc.
              apply IH, Hrest.
    + apply Z.ltb_ge in Hguard. split.
      * intros Hall. inversion Hall; subst. apply IH. assumption.
      * intros Hbad. inversion Hbad as [? ? Hidx|? ? Hrest]; subst;
          [lia|]. apply IH, Hrest.
Qed.

(** X8: given the row of indices the index returns, [search] raises
    [IndexError] exactly when the row holds an index below [-len(chunks)]
    (with an empty chunk list: any negative index, such as the padding
    -1), and returns a context otherwise; indices past the end are only
    skipped. *)
Theorem search_index_error (self : DenseRetriever) (question : string)
  (top_k : Z) (indices : list Z) :
  index_search self question top_k = Some indices ->
  (search self question top_k = Raise IndexError
   <-> Exists (fun idx => idx < - Z.of_nat (length (chunks self))) indices)
  /\ (Forall (fun idx => - Z.of_nat (length (chunks self)) <= idx) indices ->
      exists context, search self question top_k = Ok context).
Proof.
  intros Hrow. unfold search. rewrite Hrow.
  destruct (select_chunks_index_error (chunks self) indices [])
    as [Hok Hbad].
  split; [split|].
  - intros Hraise.
    destruct (Exists_dec (fun idx => idx < - Z.of_nat (length (chunks self)))
                indices) as [Hex|Hnone];
      [intros idx; apply Z_lt_dec|exact Hex|].
    exfalso. destruct Hok as [selected Hsel].
    + apply Forall_Exists_neg in Hnone.
      eapply Forall_impl; [|exact Hnone]. simpl. intros idx H. lia.
    + rewrite Hsel in Hraise. discriminate.
  - intros Hex. rewrite (Hbad Hex). reflexivity.
  - intros Hall. destruct (Hok Hall) as [selected Hsel]. rewrite Hsel.
    eexists. reflexivity.
Qed.

(** The text [select_context] returns when the dense path gives nothing
    is the keyword router's, once its message has been written. *)
Lemma select_context_keyword (prints : event -> bool) (e : env)
  (section : option string) (question : string) (s : state) :
  prints UsingKeyword = true ->
  rag_enabled str_lower e = false
  \/ fst (dense_context prints e question 5 s) = Ok "" ->
  fst (select_context json_loads str_lower prints e section question s)
  = fst (keyword_context json_loads str_lower prints e section question s).
Proof.
  intros Hprint Hcase. rewrite select_context_print_cases, Hprint.
  destruct (rag_enabled str_lower e).
  - destruct Hcase as [Hcase|Hcase]; [discriminate|].
    pose proof (dense_context_cache prints e question 5 s) as Hcache.
    destruct (dense_context prints e question 5 s) as [r s1]. simpl in *.
    subst r. simpl.
    apply keyword_context_cache_only. simpl. exact Hcache.
  - apply keyword_context_cache_only. reflexivity.
Qed.


End StoreProperties.

(** ** Properties of the callers *)

Section CallerProperties.

Variable json_loads : string -> option json.
Variable py_str : json -> string.
Variable str_lower : string -> string.
Variable prints : event -> bool.
Variable py_eq : json -> json -> bool.
Variable pydantic_str : json -> option string.

(** X10: on the keyword path, once its message has been written, with a
    dict as document and a parser that reads back what [json.dumps]
    printed, [get_chat_context] returns the taken section's list as
    context and the first four links of its records as links. *)
Theorem chat_context_links_of_section (e : env) (body : Router.ChatRequest)
  (s : state) (d : list (string * json)) (entry : route_entry)
  (items : list json) :
  prints UsingKeyword = true ->
  rag_enabled str_lower e = false
  \/ fst (dense_context prints e (Router.question body) 5 s) = Ok "" ->
  fst (load_portfolio json_loads prints e s) = Ok (JObject d) ->
  find (selects (Router.section body) (str_lower (Router.question body)))
    priority_order = Some entry ->
  get (key entry) (JArray []) d = JArray items ->
  json_loads (dumps (JArray items)) = Some (JArray items) ->
  fst (Router.get_chat_context json_loads py_str str_lower prints e body s)
  = Ok {| Router.context := dumps (JArray items);
          Router.links := firstn 4 (flat_map (record_links py_str) items);
          Router.shown_section :=
            or_default (Router.section body) "Overview" |}.
Proof.
  intros Hprint Hpath Hdoc Hfind Hsection Hparse.
  pose proof (select_context_keyword json_loads str_lower prints e
                (Router.section body) (Router.question body) s Hprint Hpath)
    as Hsel.
  rewrite (keyword_context_result json_loads str_lower prints e _ _ s _ Hdoc),
    Hfind, Hsection in Hsel.
  unfold Router.get_chat_context, bind, ret.
  destruct (select_context json_loads str_lower prints e (Router.section body)
              (Router.question body) s) as [r s']. simpl in Hsel. subst r.
  simpl. unfold extract_links. rewrite Hparse. simpl.
  rewrite visit_items_appends. reflexivity.
Qed.

(** X11: on the keyword path, once its message has been written, when no
    section is taken the context is the whole document, and for a
    document that is no list (and is read back by the parser)
    [get_chat_context] returns no links. *)
Theorem chat_context_fallback_no_links (e : env) (body : Router.ChatRequest)
  (s : state) (doc : json) :
  prints UsingKeyword = true ->
  rag_enabled str_lower e = false
  \/ fst (dense_context prints e (Router.question body) 5 s) = Ok "" ->
  fst (load_portfolio json_loads prints e s) = Ok doc ->
  find (selects (Router.section body) (str_lower (Router.question body)))
    priority_order = None ->
  is_list doc = false ->
  json_loads (dumps doc) = Some doc ->
  fst (Router.get_chat_context json_loads py_str str_lower prints e body s)
  = Ok {| Router.context := dumps doc;
          Router.links := [];
          Router.shown_section :=
            or_default (Router.section body) "Overview" |}.
Proof.
  intros Hprint Hpath Hdoc Hfind Hshape Hparse.
  pose proof (select_context_keyword json_loads str_lower prints e
                (Router.section body) (Router.question body) s Hprint Hpath)
    as Hsel.
  rewrite (keyword_context_result json_loads str_lower prints e _ _ s _ Hdoc),
    Hfind in Hsel.
  unfold Router.get_chat_context, bind, ret.
  destruct (select_context json_loads str_lower prints e (Router.section body)
              (Router.question body) s) as [r s']. simpl in Hsel. subst r.
  simpl. unfold extract_links. rewrite Hparse.
  destruct doc; try discriminate; reflexivity.
Qed.

Lemma existsb_false_Forall (u : json) (seen : list link) :
  existsb (py_eq u) (map url seen) = false ->
  Forall (fun earlier => py_eq u (url earlier) = false) seen.
Proof.
  induction seen as [|x seen IH]; simpl; intros H; constructor.
  - apply orb_false_iff in H. apply H.
  - apply IH. apply orb_false_iff in H. apply H.
Qed.

Lemma apart_snoc (unique_links : list link) (x : link) :
  ForallOrdPairs (apart py_eq) unique_links ->
  Forall (fun earlier => apart py_eq earlier x) unique_links ->
  ForallOrdPairs (apart py_eq) (unique_links ++ [x]).
Proof.
  induction 1 as [|a l Ha Hl IH]; intros Hx; simpl.
  - constructor; constructor.
  - inversion Hx as [|? ? Hax Hlx]; subst. constructor.
    + apply Forall_app. split; [exact Ha|]. constructor; [exact Hax|].
      constructor.
    + apply IH, Hlx.
Qed.

Lemma In_firstn {A : Type} (x : A) (l : list A) :
  forall n, In x (firstn n l) -> In x l.
Proof.
  induction l as [|a l IH]; intros n; [rewrite firstn_nil; auto|].
  destruct n as [|n]; simpl; [contradiction|].
  intros [H|H]; [left; exact H|right; apply (IH n), H].
Qed.

Lemma apart_firstn (n : nat) (l : list link) :
  ForallOrdPairs (apart py_eq) l ->
  ForallOrdPairs (apart py_eq) (firstn n l).
Proof.
  intros H. revert n. induction H as [|a l Ha Hl IH]; intros n.
  - rewrite firstn_nil. constructor.
  - destruct n as [|n]; simpl; [constructor|]. constructor; [|apply IH].
    apply Forall_forall. intros x Hx.
    apply (proj1 (Forall_forall _ _) Ha). apply (In_firstn x l n), Hx.
Qed.

(** What the loop keeps: started with the urls of [unique_links] as the
    seen set, it returns [unique_links] followed by links of [all_links],
    all hashable and each apart from every link before it. *)
Lemma unique_loop_keeps (all_links : list link) :
  forall unique_links result,
    Main.unique_loop py_eq all_links unique_links (map url unique_links)
    = Some result ->
    ForallOrdPairs (apart py_eq) unique_links ->
    ForallOrdPairs (apart py_eq) result
    /\ exists kept, result = (unique_links ++ kept)%list
                    /\ incl kept all_links
                    /\ Forall (fun l => Main.hashable (url l) = true) kept.
Proof.
  induction all_links as [|link rest IH]; intros unique_links result; simpl.
  - intros H Hu. injection H as <-. split; [exact Hu|].
    exists []. rewrite app_nil_r. repeat split; [apply incl_refl|constructor].
  - unfold Main.in_set.
    destruct (Main.hashable (url link)) eqn:Hhash; [|discriminate].
    destruct (existsb (py_eq (url link)) (map url unique_links)) eqn:Hseen.
    + intros H Hu. destruct (IH _ _ H Hu) as (Hr & kept & -> & Hincl & Hk).
      split; [exact Hr|]. exists kept.
      repeat split; [apply incl_tl, Hincl|exact Hk].
    + intros H Hu.
      replace (map url unique_links ++ [url link])%list
        with (map url (unique_links ++ [link])) in H
        by (rewrite map_app; reflexivity).
      apply IH in H;
        [|apply apart_snoc; [exact Hu|apply existsb_false_Forall, Hseen]].
      destruct H as (Hr & kept & -> & Hincl & Hk).
      split; [exact Hr|]. exists (link :: kept).
      rewrite <- app_assoc. repeat split.
      * intros x [<-|Hx]; [left; reflexivity|right; apply Hincl, Hx].
      * constructor; [exact Hhash|exact Hk].
Qed.

Lemma unique_loop_app (provider_links context_links : list link) :
  forall unique_links,
    Main.unique_loop py_eq (provider_links ++ context_links) unique_links
      (map url unique_links)
    = match Main.unique_loop py_eq provider_links unique_links
              (map url unique_links) with
      | Some kept => Main.unique_loop py_eq context_links kept (map url kept)
      | None => None
      end.
Proof.
  induction provider_links as [|link rest IH]; intros unique_links; simpl;
    [reflexivity|].
  destruct (Main.in_set py_eq (url link) (map url unique_links))
    as [[|]|]; [apply IH| |reflexivity].
  replace (map url unique_links ++ [url link])%list
    with (map url (unique_links ++ [link]))
    by (rewrite map_app; reflexivity).
  apply IH.
Qed.

Lemma unique_loop_unhashable (all_links : list link) :
  forall unique_links seen_urls,
    Main.unique_loop py_eq all_links unique_links seen_urls = None
    <-> Exists (fun l => Main.hashable (url l) = false) all_links.
Proof.
  induction all_links as [|link rest IH]; intros unique_links seen_urls;
    simpl.
  - split; [discriminate|intros H; inversion H].
  - unfold Main.in_set. destruct (Main.hashable (url link)) eqn:Hhash.
    + destruct (existsb (py_eq (url link)) seen_urls);
        rewrite IH; (split; [intros H; right; exact H|]);
        intros H; inversion H as [? ? Hbad|? ? Hrest]; subst;
        try exact Hrest; rewrite Hhash in Hbad; discriminate.
    + split; [intros _; left; exact Hhash|reflexivity].
Qed.

Lemma chat_response (e : env) (provider : Main.Provider)
  (body : Main.ChatRequest) (s s' : state) (response : Main.ChatResponse) :
  Main.chat json_loads py_str str_lower prints py_eq pydantic_str e provider
    body s
  = (Main.Response response, s') ->
  exists context answer_text provider_links unique_links,
    select_context json_loads str_lower prints e (Main.section body)
      (Main.question body) s
    = (Ok context, s')
    /\ provider (Main.question body) context
       = Ok (answer_text, provider_links)
    /\ Main.unique_loop py_eq
         (provider_links ++ extract_links json_loads py_str context) [] []
       = Some unique_links
    /\ Main.links response = firstn 4 unique_links
    /\ Main.chips response = [or_default (Main.section body) "Overview"].
Proof.
  unfold Main.chat.
  destruct (select_context json_loads str_lower prints e (Main.section body)
              (Main.question body) s) as [[context|ex] s1];
    [|discriminate].
  destruct (provider (Main.question body) context)
    as [[answer_text provider_links]|ex] eqn:Hprov; [|discriminate].
  destruct (Main.unique_loop py_eq _ [] []) as [unique_links|] eqn:Hloop;
    [|discriminate].
  unfold Main.validate.
  destruct (match answer_text with
            | JString text => Some text
            | _ => pydantic_str answer_text
            end) as [text|]; [|discriminate].
  intros H. injection H as <- <-.
  exists context, answer_text, provider_links, unique_links.
  repeat split; try reflexivity; assumption.
Qed.

(** X12: the links of a chat response are at most four, their urls are
    hashable, and no url was found equal to the url of a link before it. *)
Theorem chat_links_distinct (e : env) (provider : Main.Provider)
  (body : Main.ChatRequest) (s s' : state) (response : Main.ChatResponse) :
  Main.chat json_loads py_str str_lower prints py_eq pydantic_str e provider
    body s
  = (Main.Response response, s') ->
  (length (Main.links response) <= 4)%nat
  /\ ForallOrdPairs (apart py_eq) (Main.links response)
  /\ Forall (fun l => Main.hashable (url l) = true) (Main.links response).
Proof.
  intros H.
  destruct (chat_response e provider body s s' response H)
    as (context & answer_text & provider_links & unique_links
        & _ & _ & Hloop & Hlinks & _).
  rewrite Hlinks.
  destruct (unique_loop_keeps _ [] unique_links Hloop (FOP_nil _))
    as (Hapart & kept & Heq & _ & Hhash).
  simpl in Heq. subst kept.
  split; [apply firstn_le_length|split].
  - apply apart_firstn, Hapart.
  - apply Forall_forall. intros x Hx.
    apply (proj1 (Forall_forall _ _) Hhash), (In_firstn x _ 4), Hx.
Qed.

(** X13: the provider's links come first: the links of a chat response
    are the first four of the provider's links without repeated urls,
    followed by links that [extract_links] found in the context. *)
Theorem chat_provider_links_first (e : env) (provider : Main.Provider)
  (body : Main.ChatRequest) (s s' : state) (response : Main.ChatResponse) :
  Main.chat json_loads py_str str_lower prints py_eq pydantic_str e provider
    body s
  = (Main.Response response, s') ->
  exists context answer_text provider_links kept found,
    fst (select_context json_loads str_lower prints e (Main.section body)
           (Main.question body) s) = Ok context
    /\ provider (Main.question body) context
       = Ok (answer_text, provider_links)
    /\ Main.unique_loop py_eq provider_links [] [] = Some kept
    /\ incl found (extract_links json_loads py_str context)
    /\ Main.links response = firstn 4 (kept ++ found).
Proof.
  intros H.
  destruct (chat_response e provider body s s' response H)
    as (context & answer_text & provider_links & unique_links
        & Hsel & Hprov & Hloop & Hlinks & _).
  pose proof (unique_loop_app provider_links
                (extract_links json_loads py_str context) []) as Happ.
  simpl in Happ. rewrite Hloop in Happ.
  destruct (Main.unique_loop py_eq provider_links [] []) as [kept|] eqn:Hkept;
    [|discriminate].
  symmetry in Happ.
  assert (Hk : ForallOrdPairs (apart py_eq) kept).
  { apply (unique_loop_keeps provider_links [] kept Hkept (FOP_nil _)). }
  destruct (unique_loop_keeps _ kept unique_links Happ Hk)
    as (_ & found & -> & Hincl & _).
  exists context, answer_text, provider_links, kept, found.
  rewrite Hsel. repeat split; assumption.
Qed.

(** X14: a url that is a list or a dict, on any link of the provider or
    of the context, makes [chat] end in the status 500, even when four
    other links come before it. *)
Theorem chat_unhashable_url (e : env) (provider : Main.Provider)
  (body : Main.ChatRequest) (s s' : state) (context : string)
  (answer_text : json) (provider_links : list link) :
  select_context json_loads str_lower prints e (Main.section body)
    (Main.question body) s
  = (Ok context, s') ->
  provider (Main.question body) context = Ok (answer_text, provider_links) ->
  Exists (fun l => Main.hashable (url l) = false)
    (provider_links ++ extract_links json_loads py_str context) ->
  Main.chat json_loads py_str str_lower prints py_eq pydantic_str e provider
    body s
  = (Main.HTTPException 500, s').
Proof.
  intros Hsel Hprov Hbad. unfold Main.chat. rewrite Hsel, Hprov.
  rewrite (proj2 (unique_loop_unhashable _ [] []) Hbad). reflexivity.
Qed.

Variable skills_answer : json -> result (json * list link).
Variable projects_answer : json -> result (json * list link).
Variable experience_answer : json -> result (json * list link).
Variable education_answer : json -> result (json * list link).
Variable certifications_answer : json -> result (json * list link).
Variable overview_summary : json -> json -> json -> result (json * list link).

Local Abbreviation rule_based :=
  (RuleBased.answer json_loads str_lower skills_answer projects_answer
     experience_answer education_answer certifications_answer
     overview_summary).

(** Every branch of [answer] starts with [data.get] on the parsed
    context. *)
Ltac answer_on v :=
  unfold RuleBased.answer, RuleBased._answer_skills,
    RuleBased._answer_projects, RuleBased._answer_experience,
    RuleBased._answer_education, RuleBased._answer_certifications,
    RuleBased._answer_overview, RuleBased.section_answer,
    RuleBased.data_get;
  destruct v; try discriminate; simpl;
  repeat match goal with
         | |- context [if ?b then _ else _] => destruct b; try reflexivity
         end.

(** X15: the rule-based provider raises [AttributeError] on every context
    that parses to a value other than a dict, whatever the question: each
    of its answers starts with [data.get]. *)
Theorem rule_based_needs_dict (question context : string) (v : json) :
  json_loads context = Some v ->
  is_dict v = false ->
  rule_based question context = Raise AttributeError.
Proof.
  intros Hparse Hshape. unfold RuleBased.answer.
  rewrite Hparse. answer_on v.
Qed.

(** X16: on a context that is no JSON, such as the text of a dense
    search, the rule-based provider answers every question that contains
    one of its keywords with a statement that it has no information, and
    gives no links. *)
Theorem rule_based_plain_text_context (question context : string) :
  json_loads context = None ->
  Py.any_in rule_based_topics (str_lower question) = true ->
  exists none,
    In none no_information
    /\ rule_based question context = Ok (JString none, []).
Proof.
  intros Hparse Htopic. unfold RuleBased.answer.
  rewrite Hparse.
  unfold rule_based_topics, Py.any_in in Htopic.
  rewrite !existsb_app in Htopic. unfold Py.any_in.
  unfold RuleBased._answer_skills, RuleBased._answer_projects,
    RuleBased._answer_experience, RuleBased._answer_education,
    RuleBased._answer_certifications, RuleBased.section_answer,
    RuleBased.data_get, no_information.
  destruct (existsb _ ["skill"; "tech"; "stack"; "technology"]);
    [eexists; split; [left; reflexivity|reflexivity]|].
  destruct (existsb _ ["project"; "built"; "develop"; "work on"]);
    [eexists; split; [right; left; reflexivity|reflexivity]|].
  destruct (existsb _ ["experience"; "work"; "job"; "company"]);
    [eexists; split; [right; right; left; reflexivity|reflexivity]|].
  destruct (existsb _ ["education"; "degree"; "university"; "study"]);
    [eexists; split; [right; right; right; left; reflexivity|reflexivity]|].
  destruct (existsb _ ["certification"; "certified"; "cert"]);
    [eexists; split;
     [right; right; right; right; left; reflexivity|reflexivity]|].
  discriminate Htopic.
Qed.

(** X17: with the rule-based provider, [chat] ends in the status 500
    whenever the keyword router takes a section: the context is then the
    dump of the section's value, which is no dict when it is the list the
    document holds (or the default [[]]), and the provider raises on
    it. *)
Theorem chat_rule_based_fails_on_section (e : env) (body : Main.ChatRequest)
  (s : state) (d : list (string * json)) (entry : route_entry) :
  prints UsingKeyword = true ->
  rag_enabled str_lower e = false
  \/ fst (dense_context prints e (Main.question body) 5 s) = Ok "" ->
  fst (load_portfolio json_loads prints e s) = Ok (JObject d) ->
  find (selects (Main.section body) (str_lower (Main.question body)))
    priority_order = Some entry ->
  is_dict (get (key entry) (JArray []) d) = false ->
  json_loads (dumps (get (key entry) (JArray []) d))
  = Some (get (key entry) (JArray []) d) ->
  fst (Main.chat json_loads py_str str_lower prints py_eq pydantic_str e
         rule_based body s)
  = Main.HTTPException 500.
Proof.
  intros Hprint Hpath Hdoc Hfind Hshape Hparse.
  pose proof (select_context_keyword json_loads str_lower prints e
                (Main.section body) (Main.question body) s Hprint Hpath)
    as Hsel.
  rewrite (keyword_context_result json_loads str_lower prints e _ _ s _ Hdoc),
    Hfind in Hsel.
  unfold Main.chat.
  destruct (select_context json_loads str_lower prints e (Main.section body)
              (Main.question body) s) as [r s']. simpl in Hsel. subst r.
  unfold RuleBased.answer. rewrite Hparse.
  answer_on (get (key entry) (JArray []) d).
Qed.

End CallerProperties.

(** ** The further properties on the sample data *)


Lemma hint_honoured_without_earlier_keywords_witness :
  keyword_context sample_loads Py.lower utf8 sample_env (Some "CERTIFICATIONS")
    "Anything else?" initial
  = (portfolio_data <- load_portfolio sample_loads utf8 sample_env ;;
     dumps_section portfolio_data "certifications") initial.
Proof.
  apply (hint_honoured_without_earlier_keywords sample_loads Py.lower utf8
           sample_env "Anything else?" initial
           [projects_entry; skills_entry; experience_entry; education_entry]
           [] certifications_entry).
  - reflexivity.
  - intros earlier Hin. simpl in Hin.
    repeat (destruct Hin as [<-|Hin]; [reflexivity|]). contradiction.
Defined.


Lemma edit_seen_when_mtime_advances_witness :
  fst (load_portfolio sample_loads utf8 later_env
         (snd (load_portfolio sample_loads utf8 sample_env initial)))
  = Ok updated_portfolio.
Proof.
  refine (edit_seen_when_mtime_advances sample_loads sample_env later_env
            initial _ _ _ _ sample_portfolio updated_portfolio
            eq_refl eq_refl eq_refl eq_refl _ eq_refl eq_refl eq_refl).
  discriminate.
Defined.

Lemma broken_file_read_on_every_call_witness :
  disk_reads (load_times sample_loads utf8 3 broken_env initial) = 3%nat
  /\ fst (load_portfolio sample_loads utf8 broken_env
            (load_times sample_loads utf8 3 broken_env initial))
     = Ok (JObject []).
Proof.
  destruct (broken_file_read_on_every_call sample_loads 3 broken_env initial
              _ eq_refl eq_refl
              (or_intror (ex_intro _ "{ broken" (conj eq_refl eq_refl))))
    as (_ & Hreads & Hdoc).
  split; [exact Hreads|exact Hdoc].
Defined.

Lemma search_index_error_witness :
  search empty_retriever "anything" 5 = Raise IndexError.
Proof.
  apply (proj2 (proj1 (search_index_error empty_retriever "anything" 5
                         [-1] eq_refl))).
  left. reflexivity.
Defined.



Lemma chat_context_links_of_section_witness :
  fst (Router.get_chat_context sample_loads sample_str Py.lower utf8 sample_env
         router_projects_request initial)
  = Ok {| Router.context := dumps sample_projects;
          Router.links :=
            [{| label := JString "Solver - GitHub";
                url := JString "https://example.org/solver" |};
             {| label := JString "Solver - Live Demo";
                url := JString "https://example.org/solver/demo" |}];
          Router.shown_section := "Overview" |}.
Proof.
  exact (chat_context_links_of_section sample_loads sample_str Py.lower utf8
           sample_env router_projects_request initial _ projects_entry _
           eq_refl (or_introl eq_refl) eq_refl eq_refl eq_refl eq_refl).
Defined.

Lemma chat_context_fallback_no_links_witness :
  fst (Router.get_chat_context sample_loads sample_str Py.lower utf8 sample_env
         router_greeting_request initial)
  = Ok {| Router.context := dumps sample_portfolio;
          Router.links := [];
          Router.shown_section := "Overview" |}.
Proof.
  exact (chat_context_fallback_no_links sample_loads sample_str Py.lower utf8
           sample_env router_greeting_request initial sample_portfolio
           eq_refl (or_introl eq_refl) eq_refl eq_refl eq_refl eq_refl).
Defined.

Lemma chat_links_distinct_witness :
  fst (Main.chat sample_loads sample_str Py.lower utf8 string_eq refuse
         sample_env
         sample_provider projects_request initial)
  = Main.Response sample_response
  /\ (length (Main.links sample_response) <= 4)%nat
  /\ ForallOrdPairs (apart string_eq) (Main.links sample_response).
Proof.
  split; [reflexivity|].
  destruct (chat_links_distinct sample_loads sample_str Py.lower utf8
              string_eq refuse
              sample_env sample_provider projects_request initial
              (snd (Main.chat sample_loads sample_str Py.lower utf8 string_eq
                      refuse
                      sample_env sample_provider projects_request initial))
              sample_response eq_refl) as (Hlen & Hapart & _).
  split; [exact Hlen|exact Hapart].
Defined.

Lemma chat_provider_links_first_witness :
  exists context answer_text provider_links kept found,
    fst (select_context sample_loads Py.lower utf8 sample_env
           (Main.section projects_request)
           (Main.question projects_request) initial) = Ok context
    /\ sample_provider (Main.question projects_request) context
       = Ok (answer_text, provider_links)
    /\ Main.unique_loop string_eq provider_links [] [] = Some kept
    /\ incl found (extract_links sample_loads sample_str context)
    /\ Main.links sample_response = firstn 4 (kept ++ found).
Proof.
  exact (chat_provider_links_first sample_loads sample_str Py.lower utf8
           string_eq refuse
           sample_env sample_provider projects_request initial
           (snd (Main.chat sample_loads sample_str Py.lower utf8 string_eq
                   refuse
                   sample_env sample_provider projects_request initial))
           sample_response eq_refl).
Defined.

Lemma chat_unhashable_url_witness :
  fst (Main.chat listed_repo_loads sample_str Py.lower utf8 string_eq refuse
         listed_repo_env sample_provider projects_request initial)
  = Main.HTTPException 500.
Proof.
  rewrite (chat_unhashable_url listed_repo_loads sample_str Py.lower utf8
             string_eq refuse
             listed_repo_env sample_provider projects_request initial
             _ _ _ _ eq_refl eq_refl).
  - reflexivity.
  - right. left. reflexivity.
Defined.

Lemma rule_based_needs_dict_witness :
  sample_rule_based "Which projects did you build?" (dumps sample_projects)
  = Raise AttributeError.
Proof.
  exact (rule_based_needs_dict sample_loads Py.lower plain_answer plain_answer
           plain_answer plain_answer plain_answer plain_summary
           "Which projects did you build?" (dumps sample_projects)
           sample_projects eq_refl eq_refl).
Defined.

Lemma rule_based_plain_text_context_witness :
  exists none,
    In none no_information
    /\ sample_rule_based "What skills do you have?" "Skill: Rocq"
       = Ok (JString none, []).
Proof.
  exact (rule_based_plain_text_context sample_loads Py.lower plain_answer
           plain_answer plain_answer plain_answer plain_answer
           plain_summary "What skills do you have?" "Skill: Rocq"
           eq_refl eq_refl).
Defined.

Lemma chat_rule_based_fails_on_section_witness :
  fst (Main.chat sample_loads sample_str Py.lower utf8 string_eq refuse
         sample_env
         sample_rule_based projects_request initial)
  = Main.HTTPException 500.
Proof.
  exact (chat_rule_based_fails_on_section sample_loads sample_str Py.lower
           utf8 string_eq refuse plain_answer plain_answer plain_answer
           plain_answer plain_answer plain_summary sample_env
           projects_request initial _ projects_entry eq_refl
           (or_introl eq_refl) eq_refl eq_refl eq_refl eq_refl).
Defined.
